(** * kbd_maker.py: the keyboard-layout encoder of AlvOS

    A shallow embedding of [create_keyboard_layout] (and of its local
    helper [to_byte_list]) from [src/kbd_maker.py], together with the
    properties of the 420-byte "KBLY" layout file that it writes.

    Python values are modelled as follows.
    - A [str] is the list of its code points ([N]); the characters of the
      special table need code points above 255 (the euro sign is U+20AC).
    - An [int] is a [Z]; a [bool] is kept apart because [isinstance(x, int)]
      accepts it. [None] and [bytes] stand for the values that are neither
      [str] nor [int].
    - A byte string is a [list Z] whose elements lie in [0, 255].
    - An exception is a value of [exn]; code that may raise returns a
      [result].
    - The file system and the console are an explicit [world] that
      [create_keyboard_layout] threads through. Whether [open], the write
      and [print] raise is decided by the [environment] of the world, which
      the function cannot influence. *)

From Stdlib Require Import ZArith NArith Lia.
From stdpp Require Import gmap list.

Local Open Scope Z_scope.

(** ** Python values and exceptions *)

Module Py.

Abbreviation pystr := (list N).

Inductive pyval :=
| VStr (s : pystr)
| VInt (z : Z)
| VBool (b : bool)
| VNone
| VBytes (bs : list Z).

(** [isinstance(x, int)]; [bool] is a subclass of [int]. *)
Definition isinstance_int (x : pyval) : bool :=
  match x with VInt _ | VBool _ => true | _ => false end.

Definition int_of_bool (b : bool) : Z := if b then 1 else 0.

(** The four [raise ValueError(...)] sites of [to_byte_list], in source
    order, each with the value its message prints; [BytesRange] is the
    [ValueError] of the [bytes] constructor and [EmbeddedNullByte] the one
    of [open] for a file name with the character U+0000. *)
Inductive value_error :=
| NotOneChar (x : pystr)
| CharExceedsByte (x : pystr)
| IntOutOfRange (x : Z)
| InvalidMapElement (x : pyval)
| BytesRange
| EmbeddedNullByte.

(** [OSError] stands for the errors of the operating system
    ([FileNotFoundError], [PermissionError], ...), with their [errno]. *)
Inductive exn :=
| ValueError (e : value_error)
| UnicodeEncodeError (position : nat) (c : N)
| TypeError
| StructError
| OSError (errno : Z).

Inductive result (A : Type) :=
| Ok (a : A)
| Raise (e : exn).
Arguments Ok {A} a.
Arguments Raise {A} e.

Definition rbind {A B} (r : result A) (k : A -> result B) : result B :=
  match r with
  | Ok a => k a
  | Raise e => Raise e
  end.

(** [ord(x)]: defined on strings of length one. *)
Definition ord (x : pystr) : result Z :=
  match x with
  | [c] => Ok (Z.of_N c)
  | _ => Raise TypeError
  end.

Definition is_byte (b : Z) : bool := (0 <=? b) && (b <=? 255).

(** [bytes(l)] for a list of integers. *)
Definition bytes (l : list Z) : result (list Z) :=
  if forallb is_byte l then Ok l else Raise (ValueError BytesRange).

(** [s.encode('ascii')]: fails at the first code point above 127. *)
Fixpoint encode_ascii_from (position : nat) (s : pystr) : result (list Z) :=
  match s with
  | [] => Ok []
  | c :: s' =>
      if (c <? 128)%N
      then rbind (encode_ascii_from (S position) s')
                 (fun bs => Ok (Z.of_N c :: bs))
      else Raise (UnicodeEncodeError position c)
  end.

Definition encode_ascii (s : pystr) : result (list Z) :=
  encode_ascii_from 0 s.

(** [struct.pack('<I', n)]: four bytes, least significant first. *)
Definition struct_pack_I (n : Z) : result (list Z) :=
  if (0 <=? n) && (n <? 2 ^ 32)
  then Ok [ Z.land n 255;
            Z.land (Z.shiftr n 8) 255;
            Z.land (Z.shiftr n 16) 255;
            Z.land (Z.shiftr n 24) 255 ]
  else Raise StructError.

End Py.

Import Py.

#[global] Instance result_bind : MBind result := fun _ _ k r => rbind r k.
#[global] Instance result_ret : MRet result := fun _ a => Ok a.

(** ** The world: files and console *)

Inductive log_line :=
| LayoutSaved (name filename : pystr) (nbytes : nat).

(** What the function cannot decide: whether [open(filename, 'wb')] raises
    (a missing directory, a forbidden file, an empty name, U+0000 in the
    name), whether writing and closing the file raises, and then how many
    bytes have reached the file, and whether [print] raises (a console that
    cannot show the text, a closed pipe). *)
Record environment := Environment {
  open_raises : pystr → option exn;
  write_raises : pystr → list Z → option (exn * nat);
  print_raises : log_line → option exn
}.

(** [files] gives, for a file name, the content read through this name. *)
Record world := World {
  files : gmap pystr (list Z);
  stdout : list log_line;
  env : environment
}.

Definition set_file (filename : pystr) (data : list Z) (w : world) : world :=
  {| files := <[filename := data]> (files w);
     stdout := stdout w;
     env := env w |}.

(** [with open(filename, 'wb') as f: f.write(data)]. When [open] raises
    nothing is changed; once it has succeeded the file is created or
    emptied, and it holds all of [data] unless the write raises. *)
Definition write_file (filename : pystr) (data : list Z) (w : world)
  : result unit * world :=
  match open_raises (env w) filename with
  | Some e => (Raise e, w)
  | None =>
      match write_raises (env w) filename data with
      | Some (e, written) => (Raise e, set_file filename (take written data) w)
      | None => (Ok tt, set_file filename data w)
      end
  end.

(** [print(...)]: the line appears on the console unless [print] raises. *)
Definition print (l : log_line) (w : world) : result unit * world :=
  match print_raises (env w) l with
  | Some e => (Raise e, w)
  | None =>
      (Ok tt, {| files := files w; stdout := stdout w ++ [l]; env := env w |})
  end.

(** ** [to_byte_list] *)

Definition special_chars_items : list (pystr * Z) :=
  [ ([0x20AC%N], 0x80);
    ([0xF1%N], 0xF1);
    ([0xE7%N], 0xE7);
    ([0xD1%N], 0xD1);
    ([0xC7%N], 0xC7);
    ([0xB7%N], 0xB7);
    ([0xBF%N], 0xBF);
    ([0xA1%N], 0xA1);
    ([0xB4%N], 0xB4);
    ([0xA8%N], 0xA8) ].

Definition special_chars : gmap pystr Z := list_to_map special_chars_items.

(** The body of [for x in lst]: one element is checked and appended. *)
Definition to_byte_step (bytes_list : list Z) (x : pyval) : result (list Z) :=
  match x with
  | VStr s =>
      if negb (length s =? 1)%nat then Raise (ValueError (NotOneChar s))
      else
        o ← ord s;
        let byte_val := default o (special_chars !! s) in
        if byte_val >? 255 then Raise (ValueError (CharExceedsByte s))
        else Ok (bytes_list ++ [byte_val])
  | VInt z =>
      if (z <? 0) || (z >? 255) then Raise (ValueError (IntOutOfRange z))
      else Ok (bytes_list ++ [z])
  | VBool b =>
      let z := int_of_bool b in
      if (z <? 0) || (z >? 255) then Raise (ValueError (IntOutOfRange z))
      else Ok (bytes_list ++ [z])
  | _ => Raise (ValueError (InvalidMapElement x))
  end.

Fixpoint to_byte_loop (lst : list pyval) (bytes_list : list Z)
  : result (list Z) :=
  match lst with
  | [] => Ok bytes_list
  | x :: lst' =>
      bytes_list' ← to_byte_step bytes_list x;
      to_byte_loop lst' bytes_list'
  end.

Definition to_byte_list (lst : list pyval) : result (list Z) :=
  bytes_list ← to_byte_loop lst [];
  Ok (take 128 (bytes_list ++ replicate 128 0)).

(** ** [create_keyboard_layout] *)

Definition magic : Z := 0x4B424C59.

(** Truth value of the optional [altgr_map] argument: [None] and the empty
    list are both false. *)
Definition truthy (altgr_map : option (list pyval)) : bool :=
  match altgr_map with
  | Some (_ :: _) => true
  | _ => false
  end.

(** Lines 44 to 56: everything up to and including the packing of [data]. *)
Definition layout_data (name : pystr) (normal_map shift_map : list pyval)
    (altgr_map : option (list pyval)) : result (list Z) :=
  normal_bytes ← to_byte_list normal_map ≫= bytes;
  shift_bytes ← to_byte_list shift_map ≫= bytes;
  altgr_bytes ←
    (if truthy altgr_map
     then to_byte_list (default [] altgr_map) ≫= bytes
     else bytes (replicate 128 0));
  name_bytes ← (e ← encode_ascii name; Ok (take 31 e ++ [0]));
  let name_bytes := name_bytes ++ replicate (32 - length name_bytes) 0 in
  m ← struct_pack_I magic;
  Ok (m ++ name_bytes ++ normal_bytes ++ shift_bytes ++ altgr_bytes).

(** The whole function: the file is opened and written only once [data] has
    been computed, and the console line is printed after the file is
    closed. *)
Definition create_keyboard_layout (filename name : pystr)
    (normal_map shift_map : list pyval) (altgr_map : option (list pyval))
    (w : world) : result unit * world :=
  match layout_data name normal_map shift_map altgr_map with
  | Raise e => (Raise e, w)
  | Ok data =>
      match write_file filename data w with
      | (Raise e, w) => (Raise e, w)
      | (Ok _, w) => print (LayoutSaved name filename (length data)) w
      end
  end.

(** ** Vocabulary of the file-format description *)

(** The error classes of the format description, and the class of each
    exception the encoder can raise (the [ValueError]s by their message). *)
Inductive error_kind :=
| InvalidElement
| OutOfRange
| NameEncodingError
| InternalError.

Definition error_kind_of (e : exn) : error_kind :=
  match e with
  | ValueError (NotOneChar _) => InvalidElement
  | ValueError (CharExceedsByte _) => OutOfRange
  | ValueError (IntOutOfRange _) => OutOfRange
  | ValueError (InvalidMapElement _) => InvalidElement
  | UnicodeEncodeError _ _ => NameEncodingError
  | _ => InternalError
  end.

(** The byte that one iteration of the loop appends for [x]. *)
Definition element_byte (x : pyval) : result Z :=
  l ← to_byte_step [] x; Ok (default 0 (last l)).

Definition entry_byte (x : pyval) : Z :=
  match element_byte x with
  | Ok b => b
  | Raise _ => 0
  end.

(** The error of the first entry, front to back, that the loop rejects. *)
Fixpoint first_error (m : list pyval) : option exn :=
  match m with
  | [] => None
  | x :: m' =>
      match element_byte x with
      | Raise e => Some e
      | Ok _ => first_error m'
      end
  end.

(** Entries the encoder accepts: a one-character string that is in the
    special table or has a code point up to 255, an integer in [0, 255],
    a boolean. *)
Definition valid_entry (x : pyval) : bool :=
  match x with
  | VStr [c] => bool_decide (is_Some (special_chars !! [c])) || (c <=? 255)%N
  | VInt z => (0 <=? z) && (z <=? 255)
  | VBool _ => true
  | _ => false
  end.

(** Entries that are neither a one-character string nor an integer. *)
Definition malformed_entry (x : pyval) : bool :=
  match x with
  | VStr s => negb (length s =? 1)%nat
  | _ => negb (isinstance_int x)
  end.

Definition is_ascii (s : pystr) : bool := forallb (fun c => (c <? 128)%N) s.

(** The maps in the order the encoder walks them; an [altgr_map] that is
    [None] or empty contributes no entry. *)
Definition supplied_entries (normal_map shift_map : list pyval)
    (altgr_map : option (list pyval)) : list pyval :=
  normal_map ++ shift_map ++ default [] altgr_map.

(** The environment lets the call for [data] through: neither [open], nor
    the write, nor [print] raises. *)
Definition io_raises_nothing (w : world) (filename name : pystr)
    (data : list Z) : Prop :=
  open_raises (env w) filename = None ∧
  write_raises (env w) filename data = None ∧
  print_raises (env w) (LayoutSaved name filename (length data)) = None.

(** The world after a call that wrote [data] and printed its line. *)
Definition written (filename name : pystr) (data : list Z) (w : world)
  : world :=
  {| files := <[filename := data]> (files w);
     stdout := stdout w ++ [LayoutSaved name filename (length data)];
     env := env w |}.

(** The fields of the file, as the format table gives them. *)
Definition magic_field : list Z := [0x59; 0x4C; 0x42; 0x4B].

Definition name_field (name : pystr) : list Z :=
  let content := take 31 (Z.of_N <$> name) in
  content ++ 0 :: replicate (31 - length content) 0.

Definition map_field (m : list pyval) : list Z :=
  take 128 (entry_byte <$> m) ++ replicate (128 - length m) 0.

Definition altgr_field (altgr_map : option (list pyval)) : list Z :=
  map_field (default [] altgr_map).

(** The unsigned integer that a byte string holds in little-endian order. *)
Fixpoint le_value (bs : list Z) : Z :=
  match bs with
  | [] => 0
  | b :: bs' => b + 256 * le_value bs'
  end.

(** The 128-byte region of the file that starts at offset [off]. *)
Definition region (off : nat) (data : list Z) : list Z :=
  take 128 (drop off data).


(** The three map arguments. *)
Inductive which_map :=
| Normal
| Shift
| Altgr.

Definition map_of (k : which_map) (normal_map shift_map : list pyval)
    (altgr_map : option (list pyval)) : list pyval :=
  match k with
  | Normal => normal_map
  | Shift => shift_map
  | Altgr => default [] altgr_map
  end.

(** The entries the encoder walks before it comes to map [k]. *)
Definition earlier_entries (k : which_map) (normal_map shift_map : list pyval)
  : list pyval :=
  match k with
  | Normal => []
  | Shift => normal_map
  | Altgr => normal_map ++ shift_map
  end.

(** Offset of each map in the file. *)
Definition offset_of (k : which_map) : nat :=
  match k with
  | Normal => 36
  | Shift => 164
  | Altgr => 292
  end.

(** ** The sample layout of the script (lines 63 to 92) *)

Definition normal : list pyval :=
  VStr ∘ (λ c, [c]) <$>
    ([ 27; 49; 50; 51; 52; 53; 54; 55; 56; 57; 48; 32; 161; 8; 9; 113;
       119; 101; 114; 116; 121; 117; 105; 111; 112; 96; 43; 10; 0; 97; 115; 100;
       102; 103; 104; 106; 107; 108; 241; 180; 231; 0; 60; 122; 120; 99; 118; 98;
       110; 109; 44; 46; 45; 0; 42; 0; 32; 0; 0; 0; 0; 0; 0; 0;
       0; 0; 0; 0; 0; 55; 56; 57; 45; 52; 53; 54; 43; 49; 50; 51;
       48; 46; 0; 0; 0; 0 ]%N : list N).

Definition shift : list pyval :=
  VStr ∘ (λ c, [c]) <$>
    ([ 27; 33; 34; 183; 36; 37; 38; 47; 40; 41; 61; 63; 191; 8; 9; 81;
       87; 69; 82; 84; 89; 85; 73; 79; 80; 94; 42; 10; 0; 65; 83; 68;
       70; 71; 72; 74; 75; 76; 209; 168; 199; 0; 62; 90; 88; 67; 86; 66;
       78; 77; 59; 58; 95; 0; 42; 0; 32; 0; 0; 0; 0; 0; 0; 0;
       0; 0; 0; 0; 0; 55; 56; 57; 45; 52; 53; 54; 43; 49; 50; 51;
       48; 46; 0; 0; 0; 0 ]%N : list N).

Definition altgr : list pyval :=
  VStr ∘ (λ c, [c]) <$>
    ([ 0; 27; 124; 64; 35; 126; 0; 0; 123; 91; 93; 125; 92; 124; 8; 9;
       0; 0; 8364; 0; 0; 0; 0; 0; 0; 0; 91; 93; 10; 0; 0; 0;
       0; 0; 0; 0; 0; 0; 0; 0; 123; 125; 0; 0; 0; 0; 0; 0;
       0; 0; 0; 0; 0; 0; 0; 42; 0; 32; 0; 0; 0; 0; 0; 0;
       0; 0; 0; 0; 0; 0; 55; 56; 57; 45; 52; 53; 54; 43; 49; 50;
       51; 48; 46; 0; 0; 0; 0 ]%N : list N).

(** ["es-kbd.kbd"] and ["ES-QWERTY"]. *)
Definition es_kbd : pystr := [101; 115; 45; 107; 98; 100; 46; 107; 98; 100]%N.
Definition es_qwerty : pystr := [69; 83; 45; 81; 87; 69; 82; 84; 89]%N.

(** An environment where [open] raises for the empty name and for a name
    with U+0000, and nothing else raises. *)
Definition plain_environment : environment :=
  {| open_raises := λ filename,
       match filename with
       | [] => Some (OSError 2)
       | _ =>
           if existsb (N.eqb 0) filename
           then Some (ValueError EmbeddedNullByte)
           else None
       end;
     write_raises := λ _ _, None;
     print_raises := λ _, None |}.

(** A world with no file and an empty console. *)
Definition empty_world : world :=
  {| files := ∅; stdout := []; env := plain_environment |}.

(** The call under [if __name__ == "__main__"]. *)
Definition main (w : world) : result unit * world :=
  create_keyboard_layout es_kbd es_qwerty normal shift (Some altgr) w.

(** ** Reading the file back *)

(** Entries the encoder accepts and stores as a zero byte. *)
Definition zero_entry (x : pyval) : bool :=
  valid_entry x && (entry_byte x =? 0).

(** The content of a null-terminated field, that is the bytes before the
    first zero: the name field is "null-terminated" (line 51). *)
Fixpoint c_string (field : list Z) : list Z :=
  match field with
  | [] => []
  | b :: field' => if b =? 0 then [] else b :: c_string field'
  end.

(** ** The special-character table *)

Lemma special_chars_lookup (s : pystr) (v : Z) :
  special_chars !! s = Some v → (s, v) ∈ special_chars_items.
Proof.
  intros H. by apply elem_of_list_to_map_2 in H.
Qed.

Lemma special_chars_items_inv (s : pystr) (v : Z) :
  (s, v) ∈ special_chars_items →
  0 <= v <= 255 ∧ ∃ c, s = [c] ∧ special_chars !! [c] = Some v.
Proof.
  unfold special_chars_items. intros H.
  repeat (apply elem_of_cons in H as [H | H];
          [injection H as -> ->; split; [lia | eexists; split; [done | by vm_compute]] |]).
  by apply elem_of_nil in H.
Qed.

Lemma special_chars_byte (s : pystr) (v : Z) :
  special_chars !! s = Some v → 0 <= v <= 255.
Proof.
  intros H. by apply special_chars_lookup, special_chars_items_inv in H as [? _].
Qed.

Lemma special_chars_one_char (s : pystr) (v : Z) :
  special_chars !! s = Some v → ∃ c, s = [c].
Proof.
  intros H. apply special_chars_lookup, special_chars_items_inv in H as [_ (c & -> & _)].
  by exists c.
Qed.

(** ** One loop iteration *)

Lemma to_byte_step_element (acc : list Z) (x : pyval) :
  to_byte_step acc x = b ← element_byte x; Ok (acc ++ [b]).
Proof.
  unfold element_byte.
  destruct x as [s | z | b | | bs]; simpl; try done.
  - destruct s as [| c [| c' s]]; simpl; try done.
    destruct (default (Z.of_N c) (special_chars !! [c]) >? 255); simpl; done.
  - destruct ((z <? 0) || (z >? 255)); simpl; done.
  - destruct b; simpl; done.
Qed.

Lemma element_byte_char (c : N) :
  element_byte (VStr [c]) =
    let v := default (Z.of_N c) (special_chars !! [c]) in
    if v >? 255 then Raise (ValueError (CharExceedsByte [c])) else Ok v.
Proof.
  unfold element_byte; simpl.
  destruct (default (Z.of_N c) (special_chars !! [c]) >? 255); done.
Qed.

Lemma element_byte_int (z : Z) :
  element_byte (VInt z) =
    if (z <? 0) || (z >? 255) then Raise (ValueError (IntOutOfRange z)) else Ok z.
Proof.
  unfold element_byte; simpl. destruct ((z <? 0) || (z >? 255)); done.
Qed.

Lemma element_byte_malformed (x : pyval) :
  malformed_entry x = true →
  ∃ e, element_byte x = Raise e ∧ error_kind_of e = InvalidElement.
Proof.
  destruct x as [s | z | b | | bs]; simpl; try done.
  - intros Hlen. exists (ValueError (NotOneChar s)). split; [| done].
    unfold element_byte; simpl. by rewrite Hlen.
  - by eexists.
  - by eexists.
Qed.

Lemma element_byte_valid (x : pyval) :
  valid_entry x = true → ∃ b, element_byte x = Ok b ∧ 0 <= b <= 255.
Proof.
  destruct x as [s | z | b | | bs]; simpl; try done.
  - destruct s as [| c [| c' s]]; try done.
    intros Hv. rewrite element_byte_char. simpl.
    destruct (special_chars !! [c]) as [v |] eqn:Hlk; simpl.
    + apply special_chars_byte in Hlk.
      destruct (v >? 255) eqn:Hgt; [lia |]. exists v. done.
    + rewrite bool_decide_eq_false_2 in Hv by (by intros [? ?]).
      simpl in Hv. apply N.leb_le in Hv.
      destruct (Z.of_N c >? 255) eqn:Hgt; [lia |]. eexists. split; [done | lia].
  - intros Hz. rewrite element_byte_int.
    destruct ((z <? 0) || (z >? 255)) eqn:Hr; [lia |]. exists z. split; [done | lia].
  - intros _. exists (int_of_bool b). split; [by destruct b |]. destruct b; simpl; lia.
Qed.

Lemma element_byte_invalid (x : pyval) :
  valid_entry x = false →
  ∃ e, element_byte x = Raise e ∧
       (error_kind_of e = InvalidElement ∨ error_kind_of e = OutOfRange).
Proof.
  destruct x as [s | z | b | | bs]; simpl; try done.
  - destruct s as [| c [| c' s]].
    + intros _. eexists. split; [done | by left].
    + intros Hv. rewrite element_byte_char. simpl.
      apply orb_false_iff in Hv as [Hd Hc].
      apply bool_decide_eq_false in Hd.
      destruct (special_chars !! [c]) as [v |] eqn:Hlk; [by destruct Hd |].
      simpl. apply N.leb_gt in Hc.
      destruct (Z.of_N c >? 255) eqn:Hgt; [| lia].
      eexists. split; [done | by right].
    + intros _. eexists. split; [done | by left].
  - intros Hz. rewrite element_byte_int.
    destruct ((z <? 0) || (z >? 255)) eqn:Hr; [| lia].
    eexists. split; [done | by right].
  - intros _. eexists. split; [done | by left].
  - intros _. eexists. split; [done | by left].
Qed.

Lemma entry_byte_valid (x : pyval) :
  valid_entry x = true → element_byte x = Ok (entry_byte x) ∧ 0 <= entry_byte x <= 255.
Proof.
  intros (b & Hb & Hr)%element_byte_valid. unfold entry_byte. by rewrite Hb.
Qed.

(** ** The loop and [to_byte_list] *)

Lemma to_byte_loop_spec (m : list pyval) (acc : list Z) :
  to_byte_loop m acc =
    match first_error m with
    | Some e => Raise e
    | None => Ok (acc ++ (entry_byte <$> m))
    end.
Proof.
  revert acc. induction m as [| x m IH]; intros acc; simpl.
  - by rewrite app_nil_r.
  - rewrite to_byte_step_element. unfold entry_byte.
    destruct (element_byte x) as [b | e]; simpl; [| done].
    change (to_byte_loop m (acc ++ [b]) =
            match first_error m with
            | Some e => Raise e
            | None => Ok (acc ++ b :: (entry_byte <$> m))
            end).
    rewrite IH. destruct (first_error m); [done |].
    by rewrite <- app_assoc.
Qed.

Lemma take_pad_128 (bs : list Z) :
  take 128 (bs ++ replicate 128 0) = take 128 bs ++ replicate (128 - length bs) 0.
Proof.
  rewrite take_app. f_equal. rewrite take_replicate. f_equal. lia.
Qed.

Lemma to_byte_list_spec (m : list pyval) :
  to_byte_list m =
    match first_error m with
    | Some e => Raise e
    | None => Ok (map_field m)
    end.
Proof.
  unfold to_byte_list. rewrite to_byte_loop_spec.
  destruct (first_error m); [done |]. simpl.
  change (Ok (take 128 ((entry_byte <$> m) ++ replicate 128 0)) = Ok (map_field m)).
  unfold map_field. by rewrite take_pad_128, length_fmap.
Qed.

Lemma first_error_app (l1 l2 : list pyval) :
  first_error (l1 ++ l2) =
    match first_error l1 with
    | Some e => Some e
    | None => first_error l2
    end.
Proof.
  induction l1 as [| x l1 IH]; simpl; [done |].
  by destruct (element_byte x).
Qed.

Lemma first_error_valid (m : list pyval) :
  forallb valid_entry m = true → first_error m = None.
Proof.
  induction m as [| x m IH]; simpl; [done |].
  intros [Hx Hm]%andb_true_iff.
  apply element_byte_valid in Hx as (b & -> & _). auto.
Qed.

Lemma first_error_None_valid (m : list pyval) :
  first_error m = None → forallb valid_entry m = true.
Proof.
  induction m as [| x m IH]; simpl; [done |].
  destruct (valid_entry x) eqn:Hx; simpl.
  - apply element_byte_valid in Hx as (b & -> & _). auto.
  - apply element_byte_invalid in Hx as (e & -> & _). done.
Qed.

Lemma first_error_here (pre post : list pyval) (x : pyval) (e : exn) :
  forallb valid_entry pre = true → element_byte x = Raise e →
  first_error (pre ++ x :: post) = Some e.
Proof.
  intros Hpre Hx. rewrite first_error_app, (first_error_valid pre Hpre).
  simpl. by rewrite Hx.
Qed.

Lemma first_error_invalid (m : list pyval) (x : pyval) :
  x ∈ m → valid_entry x = false →
  ∃ e, first_error m = Some e ∧
       (error_kind_of e = InvalidElement ∨ error_kind_of e = OutOfRange).
Proof.
  induction m as [| y m IH]; intros Hin Hx; [by apply elem_of_nil in Hin |].
  simpl. destruct (valid_entry y) eqn:Hy.
  - apply elem_of_cons in Hin as [-> | Hin]; [by rewrite Hx in Hy |].
    apply element_byte_valid in Hy as (b & -> & _). auto.
  - apply element_byte_invalid in Hy as (e & -> & Hk). eauto.
Qed.

Lemma map_field_length (m : list pyval) : length (map_field m) = 128%nat.
Proof.
  unfold map_field. rewrite length_app, length_take, length_replicate, length_fmap. lia.
Qed.

Lemma map_field_bytes (m : list pyval) :
  forallb valid_entry m = true → forallb is_byte (map_field m) = true.
Proof.
  intros Hm. unfold map_field. rewrite forallb_app. apply andb_true_iff. split.
  - apply forallb_forall. intros b Hb%list_elem_of_In.
    apply elem_of_take in Hb as (i & Hb & _).
    apply list_lookup_fmap_Some in Hb as (x & -> & Hx).
    assert (valid_entry x = true) as Hv.
    { eapply (proj1 (forallb_forall _ _) Hm), list_elem_of_In, list_elem_of_lookup_2, Hx. }
    apply entry_byte_valid in Hv as [_ Hr]. unfold is_byte. lia.
  - apply forallb_forall. intros b Hb%list_elem_of_In.
    by apply elem_of_replicate in Hb as [-> _].
Qed.

(** ** The name and the magic number *)

Lemma encode_ascii_from_ok (position : nat) (s : pystr) :
  is_ascii s = true → encode_ascii_from position s = Ok (Z.of_N <$> s).
Proof.
  revert position. induction s as [| c s IH]; intros position; simpl; [done |].
  intros [-> Hs]%andb_true_iff. by rewrite IH.
Qed.

Lemma encode_ascii_from_bad (position : nat) (pre post : pystr) (c : N) :
  is_ascii pre = true → (128 <= c)%N →
  encode_ascii_from position (pre ++ c :: post) =
    Raise (UnicodeEncodeError (position + length pre) c).
Proof.
  revert position. induction pre as [| c' pre IH]; intros position; simpl.
  - intros _ Hc. apply N.ltb_ge in Hc as ->. by rewrite Nat.add_0_r.
  - intros [-> Hpre]%andb_true_iff Hc. rewrite IH by done.
    simpl. by rewrite Nat.add_succ_r.
Qed.

Lemma is_ascii_false_split (s : pystr) :
  is_ascii s = false →
  ∃ pre c post, s = pre ++ c :: post ∧ is_ascii pre = true ∧ (128 <= c)%N.
Proof.
  induction s as [| c s IH]; simpl; [done |].
  destruct (c <? 128)%N eqn:Hc; simpl.
  - intros (pre & c' & post & -> & Hpre & Hc')%IH.
    exists (c :: pre), c', post. simpl. by rewrite Hc, Hpre.
  - intros _. exists [], c, s. apply N.ltb_ge in Hc. done.
Qed.

Lemma encode_ascii_ok (s : pystr) :
  is_ascii s = true → encode_ascii s = Ok (Z.of_N <$> s).
Proof. apply encode_ascii_from_ok. Qed.

Lemma encode_ascii_bad (pre post : pystr) (c : N) :
  is_ascii pre = true → (128 <= c)%N →
  encode_ascii (pre ++ c :: post) = Raise (UnicodeEncodeError (length pre) c).
Proof. intros Hpre Hc. unfold encode_ascii. by rewrite encode_ascii_from_bad. Qed.

Lemma name_field_length (name : pystr) : length (name_field name) = 32%nat.
Proof.
  unfold name_field. cbv zeta.
  rewrite length_app, !length_take, length_fmap. cbn [length].
  rewrite length_replicate. lia.
Qed.

Lemma struct_pack_I_magic : struct_pack_I magic = Ok magic_field.
Proof. reflexivity. Qed.

(** [struct.pack('<I', n)] gives four bytes that hold [n], least
    significant byte first. *)
Lemma struct_pack_I_little_endian (n : Z) (bs : list Z) :
  struct_pack_I n = Ok bs →
  length bs = 4%nat ∧ Forall (λ b, 0 <= b <= 255) bs ∧ le_value bs = n.
Proof.
  unfold struct_pack_I.
  destruct ((0 <=? n) && (n <? 2 ^ 32)) eqn:Hr; [| done].
  intros [= <-]. split; [done |].
  assert (0 <= n < 4294967296) as Hn by lia. clear Hr.
  change 255 with (Z.ones 8).
  rewrite !Z.land_ones, !Z.shiftr_div_pow2 by lia.
  change (Z.ones 8) with 255.
  change (2 ^ 8) with 256. change (2 ^ 16) with 65536.
  change (2 ^ 24) with 16777216.
  split.
  - repeat apply Forall_cons_2; [..| apply Forall_nil_2];
      Z.to_euclidean_division_equations; lia.
  - cbn [le_value]. Z.to_euclidean_division_equations. lia.
Qed.

(** ** [layout_data], all cases *)

Lemma altgr_entries_not_truthy (altgr_map : option (list pyval)) :
  truthy altgr_map = false → default [] altgr_map = [].
Proof. by destruct altgr_map as [[| x l] |]. Qed.

Lemma bind_Ok {A B} (a : A) (k : A → result B) : Ok a ≫= k = k a.
Proof. reflexivity. Qed.

Lemma bind_Raise {A B} (e : exn) (k : A → result B) :
  (Raise e : result A) ≫= k = Raise e.
Proof. reflexivity. Qed.

Lemma map_bytes_spec (m : list pyval) :
  to_byte_list m ≫= bytes =
    match first_error m with
    | Some e => Raise e
    | None => Ok (map_field m)
    end.
Proof.
  rewrite to_byte_list_spec.
  destruct (first_error m) eqn:Hm; [done |].
  rewrite bind_Ok. unfold bytes.
  by rewrite (map_field_bytes _ (first_error_None_valid _ Hm)).
Qed.

Lemma altgr_bytes_spec (altgr_map : option (list pyval)) :
  (if truthy altgr_map
   then to_byte_list (default [] altgr_map) ≫= bytes
   else bytes (replicate 128 0)) =
    match first_error (default [] altgr_map) with
    | Some e => Raise e
    | None => Ok (altgr_field altgr_map)
    end.
Proof.
  destruct (truthy altgr_map) eqn:Ht.
  - apply map_bytes_spec.
  - unfold altgr_field. by rewrite (altgr_entries_not_truthy _ Ht).
Qed.

Lemma name_bytes_spec (name : pystr) (e : list Z) :
  e = Z.of_N <$> name →
  let name_bytes := take 31 e ++ [0] in
  name_bytes ++ replicate (32 - length name_bytes) 0 = name_field name.
Proof.
  intros ->. cbv zeta. unfold name_field.
  rewrite <- app_assoc. f_equal. cbn [app]. f_equal.
  rewrite length_app. cbn [length]. f_equal. lia.
Qed.

Lemma layout_data_spec (name : pystr) (normal_map shift_map : list pyval)
    (altgr_map : option (list pyval)) :
  layout_data name normal_map shift_map altgr_map =
    match first_error (supplied_entries normal_map shift_map altgr_map) with
    | Some e => Raise e
    | None =>
        match encode_ascii name with
        | Raise e => Raise e
        | Ok _ =>
            Ok (magic_field ++ name_field name ++ map_field normal_map ++
                map_field shift_map ++ altgr_field altgr_map)
        end
    end.
Proof.
  unfold layout_data, supplied_entries.
  rewrite !first_error_app, altgr_bytes_spec, !map_bytes_spec.
  destruct (first_error normal_map); [done |]. rewrite bind_Ok.
  destruct (first_error shift_map); [done |]. rewrite bind_Ok.
  destruct (first_error (default [] altgr_map)); [done |]. rewrite bind_Ok.
  destruct (is_ascii name) eqn:Hname.
  - rewrite (encode_ascii_ok _ Hname), !bind_Ok, struct_pack_I_magic, bind_Ok.
    by rewrite (name_bytes_spec name).
  - apply is_ascii_false_split in Hname as (pre & c & post & -> & Hpre & Hc).
    by rewrite (encode_ascii_bad _ _ _ Hpre Hc).
Qed.

(** ** [create_keyboard_layout]: success and failure *)

Lemma create_keyboard_layout_ok (filename name : pystr)
    (normal_map shift_map : list pyval) (altgr_map : option (list pyval))
    (w : world) (data : list Z) :
  layout_data name normal_map shift_map altgr_map = Ok data →
  io_raises_nothing w filename name data →
  create_keyboard_layout filename name normal_map shift_map altgr_map w =
    (Ok tt, written filename name data w).
Proof.
  intros H (Ho & Hw & Hp). unfold create_keyboard_layout, write_file, print.
  rewrite H, Ho, Hw. simpl. by rewrite Hp.
Qed.

Lemma create_keyboard_layout_Ok_inv (filename name : pystr)
    (normal_map shift_map : list pyval) (altgr_map : option (list pyval))
    (w w' : world) (u : unit) :
  create_keyboard_layout filename name normal_map shift_map altgr_map w =
    (Ok u, w') →
  ∃ data,
    layout_data name normal_map shift_map altgr_map = Ok data ∧
    io_raises_nothing w filename name data ∧
    w' = written filename name data w.
Proof.
  unfold create_keyboard_layout, write_file, print.
  destruct (layout_data _ _ _ _) as [data |]; [| done].
  destruct (open_raises _ _) eqn:Ho; [done |].
  destruct (write_raises _ _ _) as [[e k] |] eqn:Hw; [done |]. simpl.
  destruct (print_raises _ _) eqn:Hp; [done |].
  intros [= _ <-]. by exists data.
Qed.

Lemma create_keyboard_layout_raise (filename name : pystr)
    (normal_map shift_map : list pyval) (altgr_map : option (list pyval))
    (w : world) (e : exn) :
  layout_data name normal_map shift_map altgr_map = Raise e →
  create_keyboard_layout filename name normal_map shift_map altgr_map w =
    (Raise e, w).
Proof. intros H. unfold create_keyboard_layout. by rewrite H. Qed.

(** A successful call wrote the five fields, one after the other, to
    [filename]; all entries were valid and the name was ASCII. *)
Lemma create_keyboard_layout_success (filename name : pystr)
    (normal_map shift_map : list pyval) (altgr_map : option (list pyval))
    (w w' : world) (u : unit) :
  create_keyboard_layout filename name normal_map shift_map altgr_map w =
    (Ok u, w') →
  forallb valid_entry (supplied_entries normal_map shift_map altgr_map) = true ∧
  is_ascii name = true ∧
  files w' !! filename =
    Some (magic_field ++ name_field name ++ map_field normal_map ++
          map_field shift_map ++ altgr_field altgr_map).
Proof.
  intros (data & Hd & _ & ->)%create_keyboard_layout_Ok_inv.
  rewrite layout_data_spec in Hd.
  destruct (first_error _) eqn:He; [done |].
  destruct (is_ascii name) eqn:Hname.
  - rewrite (encode_ascii_ok _ Hname) in Hd. injection Hd as <-.
    split; [by apply first_error_None_valid |]. split; [done |].
    apply lookup_insert_eq.
  - apply is_ascii_false_split in Hname as (pre & c & post & -> & Hpre & Hc).
    by rewrite (encode_ascii_bad _ _ _ Hpre Hc) in Hd.
Qed.

(** ** Where the fields lie in the file *)

Section Fields.

Variables (name : pystr) (normal_map shift_map : list pyval)
          (altgr_map : option (list pyval)).

Let data : list Z :=
  magic_field ++ name_field name ++ map_field normal_map ++
  map_field shift_map ++ altgr_field altgr_map.

Lemma data_length : length data = 420%nat.
Proof.
  unfold data, altgr_field.
  rewrite !length_app, name_field_length, !map_field_length. done.
Qed.

Lemma data_magic : take 4 data = magic_field.
Proof. unfold data. by rewrite take_app_length'. Qed.

Lemma data_name : take 32 (drop 4 data) = name_field name.
Proof.
  unfold data. rewrite drop_app_length' by done.
  rewrite take_app_length'; [done | by rewrite name_field_length].
Qed.

Lemma data_after_name :
  drop 36 data =
    map_field normal_map ++ map_field shift_map ++ altgr_field altgr_map.
Proof.
  unfold data. rewrite (app_assoc magic_field).
  rewrite drop_app_length'; [done |].
  rewrite length_app, name_field_length. done.
Qed.

Lemma data_normal : region 36 data = map_field normal_map.
Proof.
  unfold region. rewrite data_after_name.
  rewrite take_app_length'; [done | by rewrite map_field_length].
Qed.

Lemma data_shift : region 164 data = map_field shift_map.
Proof.
  unfold region. change 164%nat with (36 + 128)%nat.
  rewrite <- drop_drop, data_after_name.
  rewrite drop_app_length' by (by rewrite map_field_length).
  rewrite take_app_length'; [done | by rewrite map_field_length].
Qed.

Lemma data_altgr : drop 292 data = altgr_field altgr_map.
Proof.
  change 292%nat with (36 + 128 + 128)%nat.
  rewrite <- !drop_drop, data_after_name.
  rewrite drop_app_length' by (by rewrite map_field_length).
  rewrite drop_app_length'; [done | by rewrite map_field_length].
Qed.

Lemma data_altgr_region : region 292 data = altgr_field altgr_map.
Proof.
  unfold region. rewrite data_altgr. apply take_ge.
  unfold altgr_field. by rewrite map_field_length.
Qed.

End Fields.

Lemma region_lookup (off i : nat) (data : list Z) :
  (i < 128)%nat → region off data !! i = data !! (off + i)%nat.
Proof.
  intros Hi. unfold region. rewrite lookup_take_lt by done. apply lookup_drop.
Qed.


Lemma map_field_long (m : list pyval) :
  (128 <= length m)%nat → map_field m = take 128 (entry_byte <$> m).
Proof.
  intros Hm. unfold map_field.
  replace (128 - length m)%nat with 0%nat by lia. apply app_nil_r.
Qed.



Lemma map_field_lookup (m : list pyval) (i : nat) (x : pyval) :
  (i < 128)%nat → m !! i = Some x → map_field m !! i = Some (entry_byte x).
Proof.
  intros Hi Hx. unfold map_field.
  rewrite lookup_app_l.
  - rewrite lookup_take_lt by done. by rewrite list_lookup_fmap, Hx.
  - rewrite length_take, length_fmap. apply lookup_lt_Some in Hx. lia.
Qed.

Lemma region_of_map (name : pystr) (normal_map shift_map : list pyval)
    (altgr_map : option (list pyval)) (k : which_map) :
  region (offset_of k)
    (magic_field ++ name_field name ++ map_field normal_map ++
     map_field shift_map ++ altgr_field altgr_map) =
  map_field (map_of k normal_map shift_map altgr_map).
Proof.
  destruct k; [apply data_normal | apply data_shift | apply data_altgr_region].
Qed.

Lemma element_byte_special (x : pystr) (v : Z) :
  special_chars !! x = Some v → element_byte (VStr x) = Ok v.
Proof.
  intros Hx. destruct (special_chars_one_char _ _ Hx) as [c ->].
  rewrite element_byte_char, Hx. simpl.
  apply special_chars_byte in Hx. destruct (v >? 255) eqn:Hgt; [lia | done].
Qed.

Lemma forallb_valid_lookup (m : list pyval) :
  (∀ j y, m !! j = Some y → valid_entry y = true) →
  forallb valid_entry m = true.
Proof.
  intros H. apply forallb_forall. intros y Hy%list_elem_of_In.
  apply list_elem_of_lookup in Hy as [j Hj]. eauto.
Qed.

Lemma first_error_only (m : list pyval) (i : nat) (x : pyval) (e : exn) :
  m !! i = Some x → element_byte x = Raise e →
  (∀ j y, m !! j = Some y → j ≠ i → valid_entry y = true) →
  first_error m = Some e.
Proof.
  intros Hi Hx Hothers.
  rewrite <- (take_drop_middle m i x Hi).
  apply first_error_here; [| done].
  apply forallb_valid_lookup. intros j y Hj.
  apply lookup_take_Some in Hj as [Hj Hlt].
  apply (Hothers j y Hj). lia.
Qed.

Lemma element_byte_Raise_kind (x : pyval) (e : exn) :
  element_byte x = Raise e →
  error_kind_of e = InvalidElement ∨ error_kind_of e = OutOfRange.
Proof.
  intros Hx. destruct (valid_entry x) eqn:Hv.
  - apply element_byte_valid in Hv as (b & Hb & _). congruence.
  - apply element_byte_invalid in Hv as (e' & He' & Hk). congruence.
Qed.

Lemma to_byte_step_Raise (x : pyval) (e : exn) :
  to_byte_step [] x = Raise e ↔ element_byte x = Raise e.
Proof.
  rewrite to_byte_step_element.
  destruct (element_byte x) as [b | e']; rewrite ?bind_Ok, ?bind_Raise.
  - split; intros H; discriminate H.
  - split; intros H; injection H as ->; reflexivity.
Qed.

(** The error of [first_error] is that of an entry with only valid entries
    before it. *)
Lemma first_error_split (m : list pyval) (e : exn) :
  first_error m = Some e →
  ∃ pre x post,
    m = pre ++ x :: post ∧ forallb valid_entry pre = true ∧
    to_byte_step [] x = Raise e.
Proof.
  induction m as [| y m IH]; simpl; [done |].
  destruct (element_byte y) as [b | e'] eqn:Hy.
  - intros (pre & x & post & -> & Hpre & Hx)%IH.
    exists (y :: pre), x, post. split; [done |]. split; [| done].
    simpl. rewrite Hpre, andb_true_r.
    destruct (valid_entry y) eqn:Hv; [done |].
    apply element_byte_invalid in Hv as (e' & He' & _). congruence.
  - intros [= <-]. exists [], y, m. split; [done |]. split; [done |].
    by apply to_byte_step_Raise.
Qed.

(** An error among the maps is raised before the name is looked at, and
    leaves the world as it was. *)
Lemma create_keyboard_layout_map_error (filename name : pystr)
    (normal_map shift_map : list pyval) (altgr_map : option (list pyval))
    (w : world) (e : exn) :
  first_error (supplied_entries normal_map shift_map altgr_map) = Some e →
  create_keyboard_layout filename name normal_map shift_map altgr_map w =
    (Raise e, w).
Proof.
  intros He. apply create_keyboard_layout_raise.
  by rewrite layout_data_spec, He.
Qed.

(** ** The encoder on small inputs *)

Example short_map_is_padded :
  to_byte_list [VStr [0xF1%N]] = Ok (0xF1 :: replicate 127 0).
Proof. reflexivity. Qed.

Example long_map_is_truncated :
  to_byte_list (replicate 128 (VInt 7) ++ [VInt 8; VInt 9]) =
    Ok (replicate 128 7).
Proof. reflexivity. Qed.

Example euro_is_byte_0x80 :
  to_byte_list [VStr [0x20AC%N]] = Ok (0x80 :: replicate 127 0) ∧
  to_byte_list [VStr [0x20AD%N]] =
    Raise (ValueError (CharExceedsByte [0x20AD%N])).
Proof. split; reflexivity. Qed.

Example booleans_are_integers :
  to_byte_list [VBool true; VBool false; VInt 255] =
    Ok ([1; 0; 255] ++ replicate 125 0).
Proof. reflexivity. Qed.

Example empty_altgr_is_like_none :
  layout_data es_qwerty normal shift (Some []) =
    layout_data es_qwerty normal shift None.
Proof. reflexivity. Qed.

Example main_writes_420_bytes :
  fst (main empty_world) = Ok tt ∧
  length <$> files (snd (main empty_world)) !! es_kbd = Some 420%nat ∧
  stdout (snd (main empty_world)) = [LayoutSaved es_qwerty es_kbd 420].
Proof. repeat split; vm_compute; reflexivity. Qed.

(** * The properties of the encoder *)

(** ** Size and order of the fields *)

(** C1. For every valid input (an ASCII name, and maps all of whose entries
    are accepted) the encoder produces exactly 420 bytes: the 4-byte magic,
    the 32-byte name field, and the 128-byte normal, shift and altgr maps,
    in this order, whatever the lengths of the input maps. When neither
    [open], nor the write, nor [print] raises, the call returns and the file
    holds these 420 bytes. *)
Theorem encode_valid_input_is_420_bytes (filename name : pystr)
    (normal_map shift_map : list pyval) (altgr_map : option (list pyval))
    (w : world) :
  is_ascii name = true →
  forallb valid_entry normal_map = true →
  forallb valid_entry shift_map = true →
  forallb valid_entry (default [] altgr_map) = true →
  ∃ data,
    layout_data name normal_map shift_map altgr_map = Ok data ∧
    data = magic_field ++ name_field name ++ map_field normal_map ++
           map_field shift_map ++ altgr_field altgr_map ∧
    length magic_field = 4%nat ∧
    length (name_field name) = 32%nat ∧
    length (map_field normal_map) = 128%nat ∧
    length (map_field shift_map) = 128%nat ∧
    length (altgr_field altgr_map) = 128%nat ∧
    length data = 420%nat ∧
    (io_raises_nothing w filename name data →
     ∃ w',
       create_keyboard_layout filename name normal_map shift_map altgr_map w =
         (Ok tt, w') ∧
       files w' !! filename = Some data ∧
       stdout w' = stdout w ++ [LayoutSaved name filename 420]).
Proof.
  intros Hname Hn Hs Ha.
  assert (layout_data name normal_map shift_map altgr_map =
          Ok (magic_field ++ name_field name ++ map_field normal_map ++
              map_field shift_map ++ altgr_field altgr_map)) as Hd.
  { rewrite layout_data_spec. unfold supplied_entries.
    rewrite !first_error_app, !first_error_valid by done.
    by rewrite encode_ascii_ok. }
  eexists. split; [exact Hd |]. split; [reflexivity |].
  split; [done |]. split; [apply name_field_length |].
  split; [apply map_field_length |]. split; [apply map_field_length |].
  split; [apply map_field_length |]. split; [apply data_length |].
  intros Hio. eexists. split; [by apply create_keyboard_layout_ok |].
  unfold written. cbn [files stdout]. split; [apply lookup_insert_eq |].
  by rewrite data_length.
Qed.

(** The call of the script, in an environment where nothing raises. *)
Lemma encode_valid_input_is_420_bytes_witness :
  ∃ data,
    layout_data es_qwerty normal shift (Some altgr) = Ok data ∧
    data = magic_field ++ name_field es_qwerty ++ map_field normal ++
           map_field shift ++ altgr_field (Some altgr) ∧
    length data = 420%nat ∧
    io_raises_nothing empty_world es_kbd es_qwerty data ∧
    ∃ w',
      main empty_world = (Ok tt, w') ∧
      files w' !! es_kbd = Some data ∧
      stdout w' = stdout empty_world ++ [LayoutSaved es_qwerty es_kbd 420].
Proof.
  destruct (encode_valid_input_is_420_bytes es_kbd es_qwerty normal shift
              (Some altgr) empty_world)
    as (data & Hd & Heq & _ & _ & _ & _ & _ & Hlen & Hrun);
    [vm_compute; reflexivity .. |].
  assert (io_raises_nothing empty_world es_kbd es_qwerty data) as Hio.
  { rewrite Heq. repeat split; vm_compute; reflexivity. }
  exists data. split; [exact Hd |]. split; [exact Heq |].
  split; [exact Hlen |]. split; [exact Hio |]. exact (Hrun Hio).
Defined.



(** ** The magic number *)

(** C4. In every file the encoder produces, bytes 0 to 3 are 0x59, 0x4C,
    0x42, 0x4B: the constant 0x4B424C59 in little-endian byte order. *)
Theorem magic_is_KBLY_little_endian (filename name : pystr)
    (normal_map shift_map : list pyval) (altgr_map : option (list pyval))
    (w w' : world) (u : unit) :
  create_keyboard_layout filename name normal_map shift_map altgr_map w =
    (Ok u, w') →
  ∃ data,
    files w' !! filename = Some data ∧
    take 4 data = [0x59; 0x4C; 0x42; 0x4B] ∧
    le_value (take 4 data) = 0x4B424C59 ∧
    magic = 0x4B424C59.
Proof.
  intros (_ & _ & Hf)%create_keyboard_layout_success.
  eexists. split; [exact Hf |]. by rewrite data_magic.
Qed.

Lemma magic_is_KBLY_little_endian_witness :
  main empty_world = (Ok tt, snd (main empty_world)) ∧
  ∃ data,
    files (snd (main empty_world)) !! es_kbd = Some data ∧
    take 4 data = [0x59; 0x4C; 0x42; 0x4B] ∧
    le_value (take 4 data) = 0x4B424C59 ∧
    magic = 0x4B424C59.
Proof.
  split; [vm_compute; reflexivity |].
  apply (magic_is_KBLY_little_endian es_kbd es_qwerty normal shift
           (Some altgr) empty_world (snd (main empty_world)) tt).
  vm_compute; reflexivity.
Defined.

(** ** The name field *)

(** C5. In every file the encoder produces the name is ASCII and its field
    is bytes 4 to 35: the name's bytes, cut to 31 at most, then a zero
    terminator and zero padding up to 32 bytes. A name of 40 characters is
    stored as its first 31 characters and the terminator, and the normal map
    still starts at byte 36. *)
Theorem name_field_is_bytes_4_to_35 (filename name : pystr)
    (normal_map shift_map : list pyval) (altgr_map : option (list pyval))
    (w w' : world) (u : unit) :
  create_keyboard_layout filename name normal_map shift_map altgr_map w =
    (Ok u, w') →
  ∃ data,
    files w' !! filename = Some data ∧
    Forall (λ c, (c < 128)%N) name ∧
    let stored := Z.of_N <$> take 31 name in
    length stored = (length name `min` 31)%nat ∧
    take 32 (drop 4 data) = stored ++ 0 :: replicate (31 - length stored) 0 ∧
    length (take 32 (drop 4 data)) = 32%nat ∧
    (length name = 40%nat → take 32 (drop 4 data) = stored ++ [0]) ∧
    region 36 data = map_field normal_map.
Proof.
  intros (_ & Hname & Hf)%create_keyboard_layout_success.
  eexists. split; [exact Hf |]. split.
  { apply Forall_forall. intros c Hc%list_elem_of_In.
    apply N.ltb_lt. revert c Hc. by apply forallb_forall. }
  cbv zeta. rewrite data_name, data_normal, name_field_length.
  assert (length (Z.of_N <$> take 31 name) = (length name `min` 31)%nat) as Hlen.
  { rewrite length_fmap, length_take. lia. }
  unfold name_field. rewrite <- fmap_take.
  repeat split; [done |].
  intros H40. rewrite Hlen, H40. done.
Qed.

(** A name of 40 letters ["A".."Z", "a".."n"]. *)
Lemma name_field_is_bytes_4_to_35_witness :
  let name := N.of_nat <$> seq 65 26 ++ seq 97 14 in
  let w' := snd (create_keyboard_layout es_kbd name normal shift None
                   empty_world) in
  length name = 40%nat ∧
  ∃ data,
    files w' !! es_kbd = Some data ∧
    Forall (λ c, (c < 128)%N) name ∧
    let stored := Z.of_N <$> take 31 name in
    length stored = (length name `min` 31)%nat ∧
    take 32 (drop 4 data) = stored ++ 0 :: replicate (31 - length stored) 0 ∧
    length (take 32 (drop 4 data)) = 32%nat ∧
    (length name = 40%nat → take 32 (drop 4 data) = stored ++ [0]) ∧
    region 36 data = map_field normal.
Proof.
  intros name w'. split; [reflexivity |].
  apply (name_field_is_bytes_4_to_35 es_kbd name normal shift None
           empty_world w' tt).
  vm_compute; reflexivity.
Defined.

(** ** A missing altgr map *)

(** C8. When the call has no altgr map, bytes 292 to 419 of the file are all
    zero. *)
Theorem missing_altgr_is_zero (filename name : pystr)
    (normal_map shift_map : list pyval) (w w' : world) (u : unit) :
  create_keyboard_layout filename name normal_map shift_map None w =
    (Ok u, w') →
  ∃ data,
    files w' !! filename = Some data ∧
    length data = 420%nat ∧
    drop 292 data = replicate 128 0 ∧
    ∀ i, (292 <= i <= 419)%nat → data !! i = Some 0.
Proof.
  intros (_ & _ & Hf)%create_keyboard_layout_success.
  eexists. split; [exact Hf |]. split; [apply data_length |].
  assert (drop 292 (magic_field ++ name_field name ++ map_field normal_map ++
                    map_field shift_map ++ altgr_field None) =
          replicate 128 0) as Hd by (by rewrite data_altgr).
  split; [exact Hd |].
  intros i Hi. replace i with (292 + (i - 292))%nat by lia.
  rewrite <- lookup_drop, Hd. apply lookup_replicate_2. lia.
Qed.

Lemma missing_altgr_is_zero_witness :
  let w' := snd (create_keyboard_layout es_kbd es_qwerty normal shift None
                   empty_world) in
  create_keyboard_layout es_kbd es_qwerty normal shift None empty_world =
    (Ok tt, w') ∧
  ∃ data,
    files w' !! es_kbd = Some data ∧
    length data = 420%nat ∧
    drop 292 data = replicate 128 0 ∧
    ∀ i, (292 <= i <= 419)%nat → data !! i = Some 0.
Proof.
  intros w'. split; [vm_compute; reflexivity |].
  apply (missing_altgr_is_zero es_kbd es_qwerty normal shift empty_world w' tt).
  vm_compute; reflexivity.
Defined.

(** ** Special characters *)

(** C6. A one-character entry that is in the special table is stored as the
    table's byte, not as its code point. In particular the normal map
    ['ñ'] gives byte 0xF1 at offset 36 and 127 zero bytes after it. *)
Theorem special_chars_are_substituted (filename name : pystr)
    (normal_map shift_map : list pyval) (altgr_map : option (list pyval))
    (w w' : world) (u : unit) :
  create_keyboard_layout filename name normal_map shift_map altgr_map w =
    (Ok u, w') →
  ∃ data,
    files w' !! filename = Some data ∧
    (∀ k i x v,
       special_chars !! x = Some v →
       map_of k normal_map shift_map altgr_map !! i = Some (VStr x) →
       (i < 128)%nat →
       element_byte (VStr x) = Ok v ∧
       data !! (offset_of k + i)%nat = Some v) ∧
    (normal_map = [VStr [0xF1%N]] →
     data !! 36%nat = Some 0xF1 ∧ take 127 (drop 37 data) = replicate 127 0).
Proof.
  intros (_ & _ & Hf)%create_keyboard_layout_success.
  eexists. split; [exact Hf |]. split.
  - intros k i x v Hx Hi Hlt.
    pose proof (element_byte_special _ _ Hx) as Hb. split; [done |].
    rewrite <- region_lookup, region_of_map by done.
    rewrite (map_field_lookup _ _ _ Hlt Hi). unfold entry_byte. by rewrite Hb.
  - intros ->.
    assert (map_field [VStr [0xF1%N]] = 0xF1 :: replicate 127 0) as Hm
      by (by vm_compute).
    split.
    + change 36%nat with (36 + 0)%nat.
      by rewrite <- region_lookup, data_normal, Hm by lia.
    + change 37%nat with (36 + 1)%nat.
      rewrite <- drop_drop, data_after_name, Hm. done.
Qed.

(** The euro sign in the sample altgr map, at scan code 18. *)
Lemma special_chars_are_substituted_witness :
  main empty_world = (Ok tt, snd (main empty_world)) ∧
  special_chars !! [0x20AC%N] = Some 0x80 ∧
  altgr !! 18%nat = Some (VStr [0x20AC%N]) ∧
  element_byte (VStr [0x20AC%N]) = Ok 0x80 ∧
  ∃ data,
    files (snd (main empty_world)) !! es_kbd = Some data ∧
    data !! (292 + 18)%nat = Some 0x80.
Proof.
  split; [vm_compute; reflexivity |].
  split; [vm_compute; reflexivity |].
  split; [vm_compute; reflexivity |].
  destruct (special_chars_are_substituted es_kbd es_qwerty normal shift
              (Some altgr) empty_world (snd (main empty_world)) tt)
    as (data & Hf & Hsub & _); [vm_compute; reflexivity |].
  destruct (Hsub Altgr 18%nat [0x20AC%N] 0x80) as [Hb Hd];
    [vm_compute; reflexivity | vm_compute; reflexivity | lia |].
  split; [exact Hb |]. exists data. split; [exact Hf | exact Hd].
Defined.

(** ** Entries beyond the first 128 *)

(** When an earlier map has an entry the encoder rejects, the error of the
    call is that entry's, not the one of the late entry of a later map. *)
Lemma late_entry_after_bad_earlier_map :
  let normal_map := [VStr [97; 98]%N] in
  let shift_map := replicate 129 (VInt 65) ++ [VInt 300] in
  (128 < length shift_map)%nat ∧
  shift_map !! 129%nat = Some (VInt 300) ∧
  forallb valid_entry (take 129 shift_map) = true ∧
  to_byte_step [] (VInt 300) = Raise (ValueError (IntOutOfRange 300)) ∧
  create_keyboard_layout es_kbd es_qwerty normal_map shift_map None
    empty_world = (Raise (ValueError (NotOneChar [97; 98]%N)), empty_world) ∧
  ValueError (NotOneChar [97; 98]%N) ≠ ValueError (IntOutOfRange 300) ∧
  error_kind_of (ValueError (NotOneChar [97; 98]%N)) ≠
    error_kind_of (ValueError (IntOutOfRange 300)).
Proof.
  intros normal_map shift_map.
  repeat split; try (vm_compute; reflexivity); try discriminate.
  vm_compute. lia.
Qed.

(** C9, amended. Every entry of a supplied map is resolved before the map is
    cut to 128 bytes: when the only entry of the map that the encoder
    rejects lies at an index of 128 or more, [to_byte_list] fails on the map
    with the error of that entry, and the call fails and writes nothing.
    The error of the call is the error of that entry when all entries of the
    maps walked earlier are valid, whatever the later maps hold; otherwise
    it is the error of the first rejected entry of the earlier maps. *)
Theorem late_invalid_entry_is_rejected (filename name : pystr)
    (normal_map shift_map : list pyval) (altgr_map : option (list pyval))
    (w : world) (k : which_map) (i : nat) (x : pyval) (e : exn) :
  map_of k normal_map shift_map altgr_map !! i = Some x →
  (128 <= i)%nat →
  to_byte_step [] x = Raise e →
  (∀ j y, map_of k normal_map shift_map altgr_map !! j = Some y →
          j ≠ i → valid_entry y = true) →
  to_byte_list (map_of k normal_map shift_map altgr_map) = Raise e ∧
  ∃ e',
    create_keyboard_layout filename name normal_map shift_map altgr_map w =
      (Raise e', w) ∧
    (forallb valid_entry (earlier_entries k normal_map shift_map) = true →
     e' = e) ∧
    (forallb valid_entry (earlier_entries k normal_map shift_map) = false →
     ∃ pre y post,
       earlier_entries k normal_map shift_map = pre ++ y :: post ∧
       forallb valid_entry pre = true ∧
       to_byte_step [] y = Raise e').
Proof.
  intros Hi _ Hx%to_byte_step_Raise Hothers.
  pose proof (first_error_only _ i x e Hi Hx Hothers) as Hk.
  split; [by rewrite to_byte_list_spec, Hk |].
  assert (∃ later,
            supplied_entries normal_map shift_map altgr_map =
              earlier_entries k normal_map shift_map ++
              map_of k normal_map shift_map altgr_map ++ later)
    as [later Hsplit].
  { unfold supplied_entries. destruct k; simpl.
    - by eexists.
    - by eexists.
    - exists []. by rewrite app_nil_r, app_assoc. }
  destruct (first_error (earlier_entries k normal_map shift_map))
    as [e1 |] eqn:He1.
  - exists e1. split; [| split].
    + apply create_keyboard_layout_map_error.
      by rewrite Hsplit, first_error_app, He1.
    + intros Hv. by rewrite (first_error_valid _ Hv) in He1.
    + intros _. by apply first_error_split.
  - exists e. split; [| split].
    + apply create_keyboard_layout_map_error.
      by rewrite Hsplit, !first_error_app, He1, Hk.
    + done.
    + intros Hv. by rewrite (first_error_None_valid _ He1) in Hv.
Qed.

(** A shift map of 130 entries whose entry 129 is the integer 300, before
    an altgr map that holds the string 'ab'. *)
Lemma late_invalid_entry_is_rejected_witness :
  let long_map := replicate 129 (VInt 65) ++ [VInt 300] in
  let e := ValueError (IntOutOfRange 300) in
  to_byte_list long_map = Raise e ∧
  ∃ e',
    create_keyboard_layout es_kbd es_qwerty normal long_map
      (Some [VStr [97; 98]%N]) empty_world = (Raise e', empty_world) ∧
    (forallb valid_entry normal = true → e' = e) ∧
    (forallb valid_entry normal = false →
     ∃ pre y post,
       normal = pre ++ y :: post ∧
       forallb valid_entry pre = true ∧
       to_byte_step [] y = Raise e').
Proof.
  intros long_map e.
  apply (late_invalid_entry_is_rejected es_kbd es_qwerty normal long_map
           (Some [VStr [97; 98]%N]) empty_world Shift 129 (VInt 300)).
  - reflexivity.
  - lia.
  - reflexivity.
  - intros j y Hj Hne. simpl in Hj.
    assert (forallb valid_entry (replicate 129 (VInt 65)) = true) as Hn
      by (vm_compute; reflexivity).
    destruct (decide (j < 129)%nat) as [Hlt | Hge].
    + unfold long_map in Hj. rewrite lookup_app_l in Hj by done.
      apply (proj1 (forallb_forall _ _) Hn), list_elem_of_In.
      by eapply list_elem_of_lookup_2.
    + apply lookup_lt_Some in Hj. unfold long_map in Hj.
      rewrite length_app, length_replicate in Hj. simpl in Hj. lia.
Defined.

(** ** Rejected entries *)

(** The encoder stops at the first entry it rejects, so an integer out of
    range that comes after a two-character string is not what the error
    reports. *)
Lemma out_of_range_int_after_bad_string :
  let normal_map := [VStr [97; 98]%N; VInt 300] in
  VInt 300 ∈ supplied_entries normal_map [] None ∧
  create_keyboard_layout es_kbd es_qwerty normal_map [] None empty_world =
    (Raise (ValueError (NotOneChar [97; 98]%N)), empty_world) ∧
  error_kind_of (ValueError (NotOneChar [97; 98]%N)) = InvalidElement ∧
  error_kind_of (ValueError (NotOneChar [97; 98]%N)) ≠ OutOfRange.
Proof.
  intros normal_map. split; [| split; [| split]].
  - apply list_elem_of_further, list_elem_of_here.
  - reflexivity.
  - reflexivity.
  - discriminate.
Qed.

(** C3, amended. An input with an integer entry outside [0, 255] in a
    supplied map makes the call fail and write nothing. The exception is
    the one of the first entry the encoder rejects, walking the normal, shift
    and altgr maps in this order, each front to back (so of the
    invalid-element or of the out-of-range class); it is the out-of-range
    error of that integer when all entries walked before it are valid. *)
Theorem out_of_range_int_is_rejected (filename name : pystr)
    (normal_map shift_map : list pyval) (altgr_map : option (list pyval))
    (w : world) (z : Z) :
  z < 0 ∨ 255 < z →
  VInt z ∈ supplied_entries normal_map shift_map altgr_map →
  ∃ e,
    create_keyboard_layout filename name normal_map shift_map altgr_map w =
      (Raise e, w) ∧
    (∃ pre x post,
       supplied_entries normal_map shift_map altgr_map = pre ++ x :: post ∧
       forallb valid_entry pre = true ∧
       to_byte_step [] x = Raise e) ∧
    (error_kind_of e = InvalidElement ∨ error_kind_of e = OutOfRange) ∧
    (∀ pre post,
       supplied_entries normal_map shift_map altgr_map = pre ++ VInt z :: post →
       forallb valid_entry pre = true →
       e = ValueError (IntOutOfRange z) ∧ error_kind_of e = OutOfRange).
Proof.
  intros Hz Hin.
  assert (valid_entry (VInt z) = false) as Hv by (simpl; lia).
  destruct (first_error_invalid _ _ Hin Hv) as (e & He & Hk).
  exists e. split; [by apply create_keyboard_layout_map_error |].
  split; [by apply first_error_split |]. split; [done |].
  intros pre post Hsplit Hpre.
  assert (element_byte (VInt z) = Raise (ValueError (IntOutOfRange z))) as Hx.
  { rewrite element_byte_int.
    destruct ((z <? 0) || (z >? 255)) eqn:Hr; [done | lia]. }
  rewrite Hsplit, (first_error_here pre post _ _ Hpre Hx) in He.
  by injection He as <-.
Qed.

Lemma out_of_range_int_is_rejected_witness :
  ∃ e,
    create_keyboard_layout es_kbd es_qwerty [VInt 300] [] None empty_world =
      (Raise e, empty_world) ∧
    (∃ pre x post,
       supplied_entries [VInt 300] [] None = pre ++ x :: post ∧
       forallb valid_entry pre = true ∧
       to_byte_step [] x = Raise e) ∧
    (error_kind_of e = InvalidElement ∨ error_kind_of e = OutOfRange) ∧
    (∀ pre post,
       supplied_entries [VInt 300] [] None = pre ++ VInt 300 :: post →
       forallb valid_entry pre = true →
       e = ValueError (IntOutOfRange 300) ∧ error_kind_of e = OutOfRange).
Proof.
  apply (out_of_range_int_is_rejected es_kbd es_qwerty [VInt 300] [] None
           empty_world 300).
  - right. lia.
  - apply list_elem_of_here.
Defined.

(** An entry that is not a character is not what the error reports when an
    integer out of range comes before it. *)
Lemma bad_string_after_out_of_range_int :
  let normal_map := [VInt 300; VStr [97; 98]%N] in
  malformed_entry (VStr [97; 98]%N) = true ∧
  VStr [97; 98]%N ∈ supplied_entries normal_map [] None ∧
  create_keyboard_layout es_kbd es_qwerty normal_map [] None empty_world =
    (Raise (ValueError (IntOutOfRange 300)), empty_world) ∧
  error_kind_of (ValueError (IntOutOfRange 300)) = OutOfRange ∧
  error_kind_of (ValueError (IntOutOfRange 300)) ≠ InvalidElement.
Proof.
  intros normal_map. split; [| split; [| split; [| split]]].
  - reflexivity.
  - apply list_elem_of_further, list_elem_of_here.
  - reflexivity.
  - reflexivity.
  - discriminate.
Qed.

(** C7, amended. An input with an entry, in a supplied map, that is neither
    a one-character string nor an integer (a string of another length, as
    'ab', included) makes the call fail and write nothing. The exception is
    the one of the first entry the encoder rejects, walking the normal, shift
    and altgr maps in this order, each front to back (so of the
    invalid-element or of the out-of-range class); it is the invalid-element
    error of that entry when all entries walked before it are valid. *)
Theorem malformed_entry_is_rejected (filename name : pystr)
    (normal_map shift_map : list pyval) (altgr_map : option (list pyval))
    (w : world) (x : pyval) :
  malformed_entry x = true →
  x ∈ supplied_entries normal_map shift_map altgr_map →
  ∃ e,
    create_keyboard_layout filename name normal_map shift_map altgr_map w =
      (Raise e, w) ∧
    (∃ pre y post,
       supplied_entries normal_map shift_map altgr_map = pre ++ y :: post ∧
       forallb valid_entry pre = true ∧
       to_byte_step [] y = Raise e) ∧
    (error_kind_of e = InvalidElement ∨ error_kind_of e = OutOfRange) ∧
    (∀ pre post,
       supplied_entries normal_map shift_map altgr_map = pre ++ x :: post →
       forallb valid_entry pre = true →
       to_byte_step [] x = Raise e ∧ error_kind_of e = InvalidElement).
Proof.
  intros Hx Hin.
  assert (valid_entry x = false) as Hv.
  { destruct x as [[| c [| c' s]] | | | |]; done. }
  destruct (first_error_invalid _ _ Hin Hv) as (e & He & Hk).
  exists e. split; [by apply create_keyboard_layout_map_error |].
  split; [by apply first_error_split |]. split; [done |].
  intros pre post Hsplit Hpre.
  destruct (element_byte_malformed _ Hx) as (e' & He' & Hk').
  rewrite Hsplit, (first_error_here pre post _ _ Hpre He') in He.
  injection He as <-. split; [by apply to_byte_step_Raise | done].
Qed.

Lemma malformed_entry_is_rejected_witness :
  ∃ e,
    create_keyboard_layout es_kbd es_qwerty [VStr [97; 98]%N] [] None
      empty_world = (Raise e, empty_world) ∧
    (∃ pre y post,
       supplied_entries [VStr [97; 98]%N] [] None = pre ++ y :: post ∧
       forallb valid_entry pre = true ∧
       to_byte_step [] y = Raise e) ∧
    (error_kind_of e = InvalidElement ∨ error_kind_of e = OutOfRange) ∧
    (∀ pre post,
       supplied_entries [VStr [97; 98]%N] [] None =
         pre ++ VStr [97; 98]%N :: post →
       forallb valid_entry pre = true →
       to_byte_step [] (VStr [97; 98]%N) = Raise e ∧
       error_kind_of e = InvalidElement).
Proof.
  apply (malformed_entry_is_rejected es_kbd es_qwerty [VStr [97; 98]%N] []
           None empty_world (VStr [97; 98]%N)).
  - reflexivity.
  - apply list_elem_of_here.
Defined.

(** ** Names that are not ASCII *)

(** The maps are converted before the name is encoded, so with a map entry
    out of range a name that is not ASCII is not what the error reports. *)
Lemma non_ascii_name_with_bad_map :
  let name := [241%N] in
  is_ascii name = false ∧
  create_keyboard_layout es_kbd name [VInt 300] [] None empty_world =
    (Raise (ValueError (IntOutOfRange 300)), empty_world) ∧
  error_kind_of (ValueError (IntOutOfRange 300)) = OutOfRange ∧
  error_kind_of (ValueError (IntOutOfRange 300)) ≠ NameEncodingError.
Proof.
  intros name. split; [| split; [| split]].
  - reflexivity.
  - reflexivity.
  - reflexivity.
  - discriminate.
Qed.

(** C10, amended. The whole name is encoded before it is cut to 31 bytes: a
    name with a character that is not ASCII, at whatever position (31 and
    beyond included), makes the call fail and write nothing; when all map
    entries are valid the error is the name encoding error, at the first
    such character. *)
Theorem non_ascii_name_is_rejected (filename name : pystr)
    (normal_map shift_map : list pyval) (altgr_map : option (list pyval))
    (w : world) :
  is_ascii name = false →
  ∃ e,
    create_keyboard_layout filename name normal_map shift_map altgr_map w =
      (Raise e, w) ∧
    (forallb valid_entry (supplied_entries normal_map shift_map altgr_map)
       = true →
     error_kind_of e = NameEncodingError ∧
     ∀ pre c post,
       name = pre ++ c :: post → is_ascii pre = true → (128 <= c)%N →
       e = UnicodeEncodeError (length pre) c).
Proof.
  intros (pre & c & post & -> & Hpre & Hc)%is_ascii_false_split.
  destruct (first_error (supplied_entries normal_map shift_map altgr_map))
    as [e |] eqn:He.
  - exists e. split; [by apply create_keyboard_layout_map_error |].
    intros Hv. by rewrite (first_error_valid _ Hv) in He.
  - exists (UnicodeEncodeError (length pre) c). split.
    + apply create_keyboard_layout_raise.
      by rewrite layout_data_spec, He, encode_ascii_bad.
    + intros _. split; [done |].
      intros pre' c' post' Hsplit Hpre' Hc'.
      pose proof (encode_ascii_bad pre post c Hpre Hc) as H1.
      pose proof (encode_ascii_bad pre' post' c' Hpre' Hc') as H2.
      rewrite Hsplit in H1. congruence.
Qed.

(** A name of 31 letters 'A' followed by 'ñ', with the sample maps. *)
Lemma non_ascii_name_is_rejected_witness :
  let name := replicate 31 65%N ++ [241%N] in
  is_ascii (take 31 name) = true ∧
  ∃ e,
    create_keyboard_layout es_kbd name normal shift (Some altgr) empty_world =
      (Raise e, empty_world) ∧
    (forallb valid_entry (supplied_entries normal shift (Some altgr)) = true →
     error_kind_of e = NameEncodingError ∧
     ∀ pre c post,
       name = pre ++ c :: post → is_ascii pre = true → (128 <= c)%N →
       e = UnicodeEncodeError (length pre) c).
Proof.
  intros name. split; [reflexivity |].
  apply (non_ascii_name_is_rejected es_kbd name normal shift (Some altgr)
           empty_world).
  reflexivity.
Defined.

(** * Further properties of the encoder *)

(** ** When the call succeeds, and how it fails *)

(** X1. The call succeeds exactly when every entry of the supplied maps is
    accepted, the name is ASCII, and neither [open], nor the write of the
    420 bytes, nor [print] raises. *)
Theorem call_succeeds_iff_input_valid (filename name : pystr)
    (normal_map shift_map : list pyval) (altgr_map : option (list pyval))
    (w : world) :
  (∃ w', create_keyboard_layout filename name normal_map shift_map altgr_map w
         = (Ok tt, w')) ↔
  forallb valid_entry (supplied_entries normal_map shift_map altgr_map) = true ∧
  is_ascii name = true ∧
  io_raises_nothing w filename name
    (magic_field ++ name_field name ++ map_field normal_map ++
     map_field shift_map ++ altgr_field altgr_map).
Proof.
  split.
  - intros [w' Hrun].
    pose proof (create_keyboard_layout_success _ _ _ _ _ _ _ _ Hrun)
      as (Hv & Hname & _).
    apply create_keyboard_layout_Ok_inv in Hrun as (data & Hd & Hio & _).
    rewrite layout_data_spec, (first_error_valid _ Hv),
      (encode_ascii_ok _ Hname) in Hd.
    injection Hd as <-. done.
  - intros (Hv & Hname & Hio). eexists.
    apply create_keyboard_layout_ok; [| exact Hio].
    by rewrite layout_data_spec, (first_error_valid _ Hv), (encode_ascii_ok _ Hname).
Qed.

Lemma validation_error_is_no_internal_error (e : exn) :
  error_kind_of e = InvalidElement ∨ error_kind_of e = OutOfRange ∨
  error_kind_of e = NameEncodingError →
  e ≠ TypeError ∧ e ≠ StructError ∧ e ≠ ValueError BytesRange.
Proof.
  intros Hk. repeat split; intros ->; simpl in Hk;
    destruct Hk as [Hk | [Hk | Hk]]; discriminate.
Qed.

Lemma first_error_Some_inv (m : list pyval) (e : exn) :
  first_error m = Some e → ∃ x, x ∈ m ∧ element_byte x = Raise e.
Proof.
  induction m as [| y m IH]; simpl; [done |].
  destruct (element_byte y) eqn:Hy.
  - intros (x & Hin & Hx)%IH. exists x. split; [by apply list_elem_of_further | done].
  - intros [= <-]. exists y. split; [apply list_elem_of_here | done].
Qed.

(** X2. A call that fails failed in one of four places. While the bytes
    were computed: the exception is one of the four [ValueError]s of
    [to_byte_list] or the [UnicodeEncodeError] of the name ([ord], [bytes]
    and [struct.pack] never raise), and files and console are as they were.
    In [open]: files and console are as they were. In the write: the file
    holds the bytes that were written before the exception. In [print]:
    the file holds all 420 bytes, and the console is as it was. *)
Theorem failure_is_classified (filename name : pystr)
    (normal_map shift_map : list pyval) (altgr_map : option (list pyval))
    (w w' : world) (e : exn) :
  create_keyboard_layout filename name normal_map shift_map altgr_map w =
    (Raise e, w') →
  (layout_data name normal_map shift_map altgr_map = Raise e ∧
   w' = w ∧
   (e ≠ TypeError ∧ e ≠ StructError ∧ e ≠ ValueError BytesRange) ∧
   (error_kind_of e = InvalidElement ∨ error_kind_of e = OutOfRange ∨
    error_kind_of e = NameEncodingError)) ∨
  (∃ data,
     layout_data name normal_map shift_map altgr_map = Ok data ∧
     length data = 420%nat ∧
     ((open_raises (env w) filename = Some e ∧ w' = w) ∨
      (∃ k, open_raises (env w) filename = None ∧
            write_raises (env w) filename data = Some (e, k) ∧
            files w' !! filename = Some (take k data) ∧
            stdout w' = stdout w) ∨
      (open_raises (env w) filename = None ∧
       write_raises (env w) filename data = None ∧
       print_raises (env w) (LayoutSaved name filename 420) = Some e ∧
       files w' !! filename = Some data ∧
       stdout w' = stdout w))).
Proof.
  unfold create_keyboard_layout, write_file, print.
  destruct (layout_data _ _ _ _) as [data | e'] eqn:Hd.
  - assert (length data = 420%nat) as Hlen.
    { rewrite layout_data_spec in Hd.
      destruct (first_error _); [done |].
      destruct (encode_ascii name); [| done].
      injection Hd as <-. apply data_length. }
    rewrite Hlen. intros Hrun. right. exists data.
    split; [done |]. split; [done |].
    destruct (open_raises _ _) eqn:Ho.
    { injection Hrun as <- <-. by left. }
    destruct (write_raises _ _ _) as [[e1 k] |] eqn:Hw.
    { injection Hrun as <- <-. right. left. exists k.
      repeat split; try done. apply lookup_insert_eq. }
    simpl in Hrun. destruct (print_raises _ _) eqn:Hp; [| done].
    injection Hrun as <- <-. right. right.
    repeat split; try done. apply lookup_insert_eq.
  - intros [= <- <-]. left. split; [done |]. split; [done |].
    assert (error_kind_of e' = InvalidElement ∨ error_kind_of e' = OutOfRange ∨
            error_kind_of e' = NameEncodingError) as Hk.
    { rewrite layout_data_spec in Hd.
      destruct (first_error _) as [e1 |] eqn:He.
      - injection Hd as <-.
        apply first_error_Some_inv in He as (x & _ & Hx).
        destruct (element_byte_Raise_kind _ _ Hx); auto.
      - destruct (is_ascii name) eqn:Hname.
        + by rewrite (encode_ascii_ok _ Hname) in Hd.
        + apply is_ascii_false_split in Hname
            as (pre & c & post & -> & Hpre & Hc).
          rewrite (encode_ascii_bad _ _ _ Hpre Hc) in Hd.
          injection Hd as <-. auto. }
    split; [by apply validation_error_is_no_internal_error | done].
Qed.

(** The sample layout written to the empty file name: [open] raises. *)
Lemma failure_is_classified_witness :
  create_keyboard_layout [] es_qwerty normal shift (Some altgr) empty_world =
    (Raise (OSError 2), empty_world) ∧
  ∃ data,
    layout_data es_qwerty normal shift (Some altgr) = Ok data ∧
    length data = 420%nat ∧
    open_raises (env empty_world) [] = Some (OSError 2).
Proof.
  split; [vm_compute; reflexivity |].
  destruct (failure_is_classified [] es_qwerty normal shift (Some altgr)
              empty_world empty_world (OSError 2))
    as [(Hd & _) | (data & Hd & Hlen & Hio)]; [vm_compute; reflexivity | |].
  - vm_compute in Hd. discriminate Hd.
  - exists data. split; [exact Hd |]. split; [exact Hlen |]. reflexivity.
Defined.

(** X3. The first entry the encoder rejects, walking the normal, shift and
    altgr maps in this order, decides the exception, whatever comes after it
    and whatever the name is. *)
Theorem first_rejected_entry_decides (filename name : pystr)
    (normal_map shift_map : list pyval) (altgr_map : option (list pyval))
    (w : world) (pre post : list pyval) (x : pyval) (e : exn) :
  supplied_entries normal_map shift_map altgr_map = pre ++ x :: post →
  forallb valid_entry pre = true →
  to_byte_step [] x = Raise e →
  create_keyboard_layout filename name normal_map shift_map altgr_map w =
    (Raise e, w).
Proof.
  intros Hsplit Hpre Hx. apply create_keyboard_layout_map_error.
  rewrite Hsplit. apply first_error_here; [done |].
  unfold element_byte. by rewrite Hx.
Qed.

(** A shift map whose second entry is 'ab', a later entry 300 and a name
    that is not ASCII. *)
Lemma first_rejected_entry_decides_witness :
  create_keyboard_layout es_kbd [241%N] normal
    [VInt 1; VStr [97; 98]%N; VInt 300] None empty_world =
    (Raise (ValueError (NotOneChar [97; 98]%N)), empty_world).
Proof.
  apply (first_rejected_entry_decides es_kbd [241%N] normal
           [VInt 1; VStr [97; 98]%N; VInt 300] None empty_world
           (normal ++ [VInt 1]) [VInt 300] (VStr [97; 98]%N)).
  - reflexivity.
  - vm_compute; reflexivity.
  - reflexivity.
Defined.

(** ** What a successful call changes *)

(** X4. After a successful call the file read through [filename] holds
    exactly the 420 bytes that were computed, whatever it held before, and
    the console has one more line, which reports this name, this file and
    420 bytes. *)
Theorem success_writes_data_and_logs (filename name : pystr)
    (normal_map shift_map : list pyval) (altgr_map : option (list pyval))
    (w w' : world) (u : unit) :
  create_keyboard_layout filename name normal_map shift_map altgr_map w =
    (Ok u, w') →
  ∃ data,
    layout_data name normal_map shift_map altgr_map = Ok data ∧
    length data = 420%nat ∧
    files w' !! filename = Some data ∧
    stdout w' = stdout w ++ [LayoutSaved name filename 420].
Proof.
  intros Hrun.
  pose proof (create_keyboard_layout_success _ _ _ _ _ _ _ _ Hrun)
    as (Hv & Hname & Hf).
  apply create_keyboard_layout_Ok_inv in Hrun as (data & Hd & _ & ->).
  exists data. split; [done |].
  assert (length data = 420%nat) as Hlen.
  { rewrite layout_data_spec, (first_error_valid _ Hv),
      (encode_ascii_ok _ Hname) in Hd.
    injection Hd as <-. apply data_length. }
  split; [done |]. unfold written. cbn [files stdout].
  split; [apply lookup_insert_eq | by rewrite Hlen].
Qed.

(** The sample layout written over an older file of the same name. *)
Lemma success_writes_data_and_logs_witness :
  let w := {| files := {[ es_kbd := [1; 2; 3] ]};
              stdout := [];
              env := plain_environment |} in
  ∃ data,
    layout_data es_qwerty normal shift (Some altgr) = Ok data ∧
    length data = 420%nat ∧
    files (snd (main w)) !! es_kbd = Some data ∧
    stdout (snd (main w)) = stdout w ++ [LayoutSaved es_qwerty es_kbd 420].
Proof.
  intros w.
  apply (success_writes_data_and_logs es_kbd es_qwerty normal shift
           (Some altgr) w (snd (main w)) tt).
  vm_compute; reflexivity.
Defined.

(** X5. Of two successful calls on the same file name the later one wins:
    the file holds what the second call alone would have written, and the
    console has both lines in order. *)
Theorem second_call_overwrites (filename name1 name2 : pystr)
    (normal1 shift1 normal2 shift2 : list pyval)
    (altgr1 altgr2 : option (list pyval)) (w w1 w2 : world) (u1 u2 : unit) :
  create_keyboard_layout filename name1 normal1 shift1 altgr1 w = (Ok u1, w1) →
  create_keyboard_layout filename name2 normal2 shift2 altgr2 w1 = (Ok u2, w2) →
  files w2 =
    files (snd (create_keyboard_layout filename name2 normal2 shift2 altgr2 w)) ∧
  stdout w2 =
    stdout w ++ [LayoutSaved name1 filename 420; LayoutSaved name2 filename 420].
Proof.
  intros (d1 & H1 & _ & ->)%create_keyboard_layout_Ok_inv
         (d2 & H2 & (Ho & Hw & Hp) & ->)%create_keyboard_layout_Ok_inv.
  assert (length d1 = 420%nat ∧ length d2 = 420%nat) as [Hl1 Hl2].
  { rewrite layout_data_spec in H1, H2.
    destruct (first_error (supplied_entries normal1 _ _)); [done |].
    destruct (encode_ascii name1); [| done].
    destruct (first_error (supplied_entries normal2 _ _)); [done |].
    destruct (encode_ascii name2); [| done].
    injection H1 as <-. injection H2 as <-. split; apply data_length. }
  cbn [written env files stdout] in *.
  rewrite (create_keyboard_layout_ok _ _ _ _ _ _ _ H2) by done.
  cbn [written snd files stdout]. rewrite Hl1, Hl2. split.
  - apply insert_insert_eq.
  - by rewrite <- app_assoc.
Qed.

Lemma second_call_overwrites_witness :
  let w1 := snd (create_keyboard_layout es_kbd [65%N] [VInt 1] [] None
                   empty_world) in
  files (snd (main w1)) = files (snd (main empty_world)) ∧
  stdout (snd (main w1)) =
    stdout empty_world ++
    [LayoutSaved [65%N] es_kbd 420; LayoutSaved es_qwerty es_kbd 420].
Proof.
  intros w1.
  apply (second_call_overwrites es_kbd [65%N] es_qwerty [VInt 1] [] normal
           shift None (Some altgr) empty_world w1 (snd (main w1)) tt tt).
  - reflexivity.
  - vm_compute; reflexivity.
Defined.

(** ** Which characters are accepted *)

Lemma special_chars_above_255 (c : N) (v : Z) :
  special_chars !! [c] = Some v →
  (c = 0x20AC%N ∧ v = 0x80) ∨ ((c <= 255)%N ∧ v = Z.of_N c).
Proof.
  intros H%special_chars_lookup. unfold special_chars_items in H.
  repeat (apply elem_of_cons in H as [H | H];
          [injection H as -> ->; first [by left | right; split; [lia | done]] |]).
  by apply elem_of_nil in H.
Qed.

(** X6. A one-character entry is stored as its code point when that is at
    most 255 (the special table changes none of these), the euro sign
    U+20AC is stored as 0x80, and every other character is rejected. *)
Theorem character_resolution (bytes_list : list Z) (c : N) :
  to_byte_step bytes_list (VStr [c]) =
    if (c <=? 255)%N then Ok (bytes_list ++ [Z.of_N c])
    else if (c =? 0x20AC)%N then Ok (bytes_list ++ [0x80])
    else Raise (ValueError (CharExceedsByte [c])).
Proof.
  rewrite to_byte_step_element, element_byte_char. cbv zeta.
  destruct (special_chars !! [c]) as [v |] eqn:Hlk; simpl.
  - destruct (special_chars_above_255 _ _ Hlk) as [[-> ->] | [Hc ->]]; [done |].
    apply N.leb_le in Hc as Hc'. rewrite Hc'.
    destruct (Z.of_N c >? 255) eqn:Hgt; [lia | done].
  - destruct (c <=? 255)%N eqn:Hc.
    + apply N.leb_le in Hc. destruct (Z.of_N c >? 255) eqn:Hgt; [lia | done].
    + apply N.leb_gt in Hc. destruct (Z.of_N c >? 255) eqn:Hgt; [| lia].
      destruct (c =? 0x20AC)%N eqn:He; [| done].
      apply N.eqb_eq in He as ->. by vm_compute in Hlk.
Qed.

(** X7. Two accepted characters are stored as the same byte only when they
    are the same character, or are U+0080 and the euro sign, which both
    give 0x80. *)
Theorem same_byte_same_character (c1 c2 : N) (b : Z) :
  to_byte_step [] (VStr [c1]) = Ok [b] →
  to_byte_step [] (VStr [c2]) = Ok [b] →
  c1 = c2 ∨
  (b = 0x80 ∧ (c1 = 0x80%N ∧ c2 = 0x20AC%N ∨ c1 = 0x20AC%N ∧ c2 = 0x80%N)).
Proof.
  rewrite !character_resolution. simpl.
  destruct (c1 <=? 255)%N eqn:H1, (c2 <=? 255)%N eqn:H2.
  - intros [= <-] [= H]. left. lia.
  - destruct (c2 =? 0x20AC)%N eqn:He2; [| done].
    apply N.eqb_eq in He2 as ->. intros [= <-] [= H]. right. split; [done |].
    left. split; [lia | done].
  - destruct (c1 =? 0x20AC)%N eqn:He1; [| done].
    apply N.eqb_eq in He1 as ->. intros [= <-] [= H]. right. split; [done |].
    right. split; [done | lia].
  - destruct (c1 =? 0x20AC)%N eqn:He1; [| done].
    destruct (c2 =? 0x20AC)%N eqn:He2; [| done].
    apply N.eqb_eq in He1 as ->. apply N.eqb_eq in He2 as ->. by left.
Qed.

Lemma same_byte_same_character_witness :
  0x80%N = 0x20AC%N ∨
  (0x80 = 0x80 ∧
   (0x80%N = 0x80%N ∧ 0x20AC%N = 0x20AC%N ∨
    0x80%N = 0x20AC%N ∧ 0x20AC%N = 0x80%N)).
Proof.
  apply (same_byte_same_character 0x80%N 0x20AC%N 0x80); reflexivity.
Defined.

(** ** Entries that do not change the file *)

Lemma create_keyboard_layout_congr (filename name : pystr)
    (n1 s1 n2 s2 : list pyval) (a1 a2 : option (list pyval)) (w : world) :
  first_error n1 = first_error n2 → map_field n1 = map_field n2 →
  first_error s1 = first_error s2 → map_field s1 = map_field s2 →
  first_error (default [] a1) = first_error (default [] a2) →
  altgr_field a1 = altgr_field a2 →
  create_keyboard_layout filename name n1 s1 a1 w =
    create_keyboard_layout filename name n2 s2 a2 w.
Proof.
  intros Hn Hnf Hs Hsf Ha Haf. unfold create_keyboard_layout.
  rewrite !layout_data_spec. unfold supplied_entries.
  by rewrite !first_error_app, Hn, Hnf, Hs, Hsf, Ha, Haf.
Qed.

Lemma first_error_app_valid (m extra : list pyval) :
  forallb valid_entry extra = true → first_error (m ++ extra) = first_error m.
Proof.
  intros He. rewrite first_error_app, (first_error_valid _ He).
  by destruct (first_error m).
Qed.

Lemma zero_entries_valid (zs : list pyval) :
  forallb zero_entry zs = true → forallb valid_entry zs = true.
Proof.
  intros H. apply forallb_forall. intros x Hx.
  by apply (proj1 (forallb_forall _ _) H), andb_true_iff in Hx as [? _].
Qed.

Lemma zero_entries_bytes (zs : list pyval) :
  forallb zero_entry zs = true → entry_byte <$> zs = replicate (length zs) 0.
Proof.
  induction zs as [| x zs IH]; [done |].
  cbn [forallb length replicate]. rewrite fmap_cons.
  intros [[_ Hx%Z.eqb_eq]%andb_true_iff Hzs]%andb_true_iff.
  by rewrite Hx, IH.
Qed.

Lemma map_field_pad (m : list pyval) :
  map_field m = take 128 ((entry_byte <$> m) ++ replicate 128 0).
Proof. unfold map_field. by rewrite take_pad_128, length_fmap. Qed.

Lemma map_field_zero_suffix (m zs : list pyval) :
  forallb zero_entry zs = true → map_field (m ++ zs) = map_field m.
Proof.
  intros Hz. rewrite !map_field_pad, fmap_app, (zero_entries_bytes _ Hz).
  rewrite <- app_assoc, <- replicate_add.
  rewrite (Nat.add_comm (length zs)), replicate_add, app_assoc.
  apply take_app_le. rewrite length_app, length_replicate. lia.
Qed.

Lemma map_field_overflow (m extra : list pyval) :
  (128 <= length m)%nat → map_field (m ++ extra) = map_field m.
Proof.
  intros Hm. rewrite !map_field_long by (rewrite ?length_app; lia).
  rewrite fmap_app. apply take_app_le. by rewrite length_fmap.
Qed.

(** X8. Zero entries at the end of a map are the same as no entries: with
    or without them [to_byte_list] returns the same bytes and the call does
    the same, for each of the three maps; an altgr map of zero entries only
    is the same as no altgr map. *)
Theorem trailing_zero_entries_change_nothing (m zs : list pyval) :
  forallb zero_entry zs = true →
  to_byte_list (m ++ zs) = to_byte_list m ∧
  (∀ filename name s a w,
     create_keyboard_layout filename name (m ++ zs) s a w =
       create_keyboard_layout filename name m s a w) ∧
  (∀ filename name n a w,
     create_keyboard_layout filename name n (m ++ zs) a w =
       create_keyboard_layout filename name n m a w) ∧
  (∀ filename name n s w,
     create_keyboard_layout filename name n s (Some (m ++ zs)) w =
       create_keyboard_layout filename name n s (Some m) w) ∧
  (∀ filename name n s w,
     create_keyboard_layout filename name n s (Some zs) w =
       create_keyboard_layout filename name n s None w).
Proof.
  intros Hz.
  pose proof (first_error_app_valid m zs (zero_entries_valid _ Hz)) as He.
  pose proof (map_field_zero_suffix m zs Hz) as Hf.
  split; [by rewrite !to_byte_list_spec, He, Hf |].
  repeat split; intros; apply create_keyboard_layout_congr; try done.
  - apply (first_error_app_valid [] zs (zero_entries_valid _ Hz)).
  - apply (map_field_zero_suffix [] zs Hz).
Qed.

(** The sample normal map ends with four '\0' entries. *)
Lemma trailing_zero_entries_change_nothing_witness :
  let zs := replicate 4 (VStr [0%N]) in
  normal = take 82 normal ++ zs ∧
  to_byte_list (take 82 normal ++ zs) = to_byte_list (take 82 normal) ∧
  create_keyboard_layout es_kbd es_qwerty (take 82 normal ++ zs) shift
    (Some altgr) empty_world =
  create_keyboard_layout es_kbd es_qwerty (take 82 normal) shift
    (Some altgr) empty_world.
Proof.
  intros zs. split; [reflexivity |].
  destruct (trailing_zero_entries_change_nothing (take 82 normal) zs)
    as (Hl & Hn & _); [reflexivity |].
  split; [exact Hl | apply Hn].
Defined.

(** X9. Accepted entries after the first 128 of a map are ignored: with or
    without them [to_byte_list] returns the same bytes and the call does the
    same, for each of the three maps. *)
Theorem accepted_entries_beyond_128_change_nothing (m extra : list pyval) :
  (128 <= length m)%nat →
  forallb valid_entry extra = true →
  to_byte_list (m ++ extra) = to_byte_list m ∧
  (∀ filename name s a w,
     create_keyboard_layout filename name (m ++ extra) s a w =
       create_keyboard_layout filename name m s a w) ∧
  (∀ filename name n a w,
     create_keyboard_layout filename name n (m ++ extra) a w =
       create_keyboard_layout filename name n m a w) ∧
  (∀ filename name n s w,
     create_keyboard_layout filename name n s (Some (m ++ extra)) w =
       create_keyboard_layout filename name n s (Some m) w).
Proof.
  intros Hm Hv.
  pose proof (first_error_app_valid m extra Hv) as He.
  pose proof (map_field_overflow m extra Hm) as Hf.
  split; [by rewrite !to_byte_list_spec, He, Hf |].
  repeat split; intros; by apply create_keyboard_layout_congr.
Qed.

Lemma accepted_entries_beyond_128_change_nothing_witness :
  let m := replicate 128 (VInt 65) in
  let extra := [VStr [0x20AC%N]; VInt 255] in
  to_byte_list (m ++ extra) = to_byte_list m ∧
  create_keyboard_layout es_kbd es_qwerty normal (m ++ extra) None
    empty_world =
  create_keyboard_layout es_kbd es_qwerty normal m None empty_world.
Proof.
  intros m extra.
  destruct (accepted_entries_beyond_128_change_nothing m extra)
    as (Hl & _ & Hs & _); [vm_compute; lia | reflexivity |].
  split; [exact Hl | apply Hs].
Defined.

(** ** The bytes of the file *)

Lemma name_field_bytes (name : pystr) :
  is_ascii name = true → Forall (λ b, 0 <= b <= 255) (name_field name).
Proof.
  intros Hname. unfold name_field. apply Forall_app. split.
  - apply Forall_take, Forall_fmap, Forall_forall. intros c Hc. simpl.
    apply list_elem_of_In, (proj1 (forallb_forall _ _) Hname), N.ltb_lt in Hc. lia.
  - apply Forall_cons. split; [lia |]. apply Forall_replicate. lia.
Qed.

Lemma map_field_in_range (m : list pyval) :
  forallb valid_entry m = true → Forall (λ b, 0 <= b <= 255) (map_field m).
Proof.
  intros Hm%map_field_bytes. apply Forall_forall. intros b Hb.
  apply list_elem_of_In, (proj1 (forallb_forall _ _) Hm) in Hb.
  unfold is_byte in Hb. lia.
Qed.

(** X10. Every byte of a file the encoder writes lies in [0, 255], and the
    bytes of the name field in [0, 127]. *)
Theorem written_file_holds_bytes (filename name : pystr)
    (normal_map shift_map : list pyval) (altgr_map : option (list pyval))
    (w w' : world) (u : unit) :
  create_keyboard_layout filename name normal_map shift_map altgr_map w =
    (Ok u, w') →
  ∃ data,
    files w' !! filename = Some data ∧
    Forall (λ b, 0 <= b <= 255) data ∧
    Forall (λ b, 0 <= b <= 127) (take 32 (drop 4 data)).
Proof.
  intros (Hv & Hname & Hf)%create_keyboard_layout_success.
  unfold supplied_entries in Hv. rewrite !forallb_app in Hv.
  apply andb_true_iff in Hv as [Hn [Hs Ha]%andb_true_iff].
  eexists. split; [exact Hf |]. split.
  - rewrite !Forall_app. split; [repeat constructor; lia |].
    split; [by apply name_field_bytes |].
    split; [by apply map_field_in_range |].
    split; by apply map_field_in_range.
  - rewrite data_name. unfold name_field. apply Forall_app. split.
    + apply Forall_take, Forall_fmap, Forall_forall. intros c Hc. simpl.
      apply list_elem_of_In, (proj1 (forallb_forall _ _) Hname), N.ltb_lt in Hc.
      lia.
    + apply Forall_cons. split; [lia |]. apply Forall_replicate. lia.
Qed.

Lemma written_file_holds_bytes_witness :
  ∃ data,
    files (snd (main empty_world)) !! es_kbd = Some data ∧
    Forall (λ b, 0 <= b <= 255) data ∧
    Forall (λ b, 0 <= b <= 127) (take 32 (drop 4 data)).
Proof.
  apply (written_file_holds_bytes es_kbd es_qwerty normal shift (Some altgr)
           empty_world (snd (main empty_world)) tt).
  vm_compute; reflexivity.
Defined.

(** X11. In a written file the byte at offset 36 + i, 164 + i or 292 + i is
    what the loop appended for entry i of the normal, shift or altgr map,
    for every i below 128; an integer entry is stored as it is. *)
Theorem scan_code_is_stored_at_its_offset (filename name : pystr)
    (normal_map shift_map : list pyval) (altgr_map : option (list pyval))
    (w w' : world) (u : unit) :
  create_keyboard_layout filename name normal_map shift_map altgr_map w =
    (Ok u, w') →
  ∃ data,
    files w' !! filename = Some data ∧
    ∀ k i x,
      (i < 128)%nat →
      map_of k normal_map shift_map altgr_map !! i = Some x →
      ∃ b, to_byte_step [] x = Ok [b] ∧
           data !! (offset_of k + i)%nat = Some b ∧
           (∀ z, x = VInt z → b = z).
Proof.
  intros (Hv & _ & Hf)%create_keyboard_layout_success.
  eexists. split; [exact Hf |]. intros k i x Hi Hx.
  assert (x ∈ supplied_entries normal_map shift_map altgr_map) as Hin.
  { apply list_elem_of_lookup_2 in Hx. unfold supplied_entries.
    rewrite !elem_of_app. destruct k; simpl in Hx; auto. }
  apply list_elem_of_In, (proj1 (forallb_forall _ _) Hv) in Hin.
  destruct (entry_byte_valid _ Hin) as [Hb _].
  exists (entry_byte x). split; [| split].
  - rewrite to_byte_step_element, Hb. done.
  - rewrite <- region_lookup, region_of_map by done.
    by apply map_field_lookup.
  - intros z ->. rewrite element_byte_int in Hb.
    destruct ((z <? 0) || (z >? 255)); [done |]. by injection Hb.
Qed.

(** Scan code 38 of the sample normal map is 'ñ'. *)
Lemma scan_code_is_stored_at_its_offset_witness :
  normal !! 38%nat = Some (VStr [0xF1%N]) ∧
  ∃ data,
    files (snd (main empty_world)) !! es_kbd = Some data ∧
    ∃ b, to_byte_step [] (VStr [0xF1%N]) = Ok [b] ∧
         data !! (36 + 38)%nat = Some b.
Proof.
  split; [reflexivity |].
  destruct (scan_code_is_stored_at_its_offset es_kbd es_qwerty normal shift
              (Some altgr) empty_world (snd (main empty_world)) tt)
    as (data & Hf & Hat); [vm_compute; reflexivity |].
  exists data. split; [exact Hf |].
  destruct (Hat Normal 38%nat (VStr [0xF1%N])) as (b & Hb & Hd & _);
    [lia | reflexivity |].
  exists b. split; [exact Hb | exact Hd].
Defined.

(** ** Encoding again what was encoded *)

Lemma int_entries_valid (bs : list Z) :
  forallb is_byte bs = true → forallb valid_entry (VInt <$> bs) = true.
Proof.
  intros Hbs. apply forallb_forall. intros x Hx%list_elem_of_In.
  apply list_elem_of_fmap in Hx as (b & -> & Hb).
  by apply list_elem_of_In, (proj1 (forallb_forall _ _) Hbs) in Hb.
Qed.

Lemma int_entries_bytes (bs : list Z) :
  forallb is_byte bs = true → entry_byte <$> (VInt <$> bs) = bs.
Proof.
  induction bs as [| b bs IH]; [done |].
  cbn [forallb]. intros [Hb Hbs]%andb_true_iff. rewrite !fmap_cons, IH by done.
  f_equal. unfold entry_byte. rewrite element_byte_int.
  unfold is_byte in Hb. destruct ((b <? 0) || (b >? 255)) eqn:Hr; [lia | done].
Qed.

Lemma map_field_int_entries (bs : list Z) :
  forallb is_byte bs = true → length bs = 128%nat →
  map_field (VInt <$> bs) = bs.
Proof.
  intros Hbs Hlen. unfold map_field.
  rewrite int_entries_bytes, length_fmap, Hlen by done.
  rewrite take_ge by lia. apply app_nil_r.
Qed.

(** X12. The bytes [to_byte_list] returns are a fixed point: given back to
    it as integer entries they are returned unchanged. They are always 128
    bytes. *)
Theorem to_byte_list_of_its_result (m : list pyval) (bs : list Z) :
  to_byte_list m = Ok bs →
  length bs = 128%nat ∧
  Forall (λ b, 0 <= b <= 255) bs ∧
  to_byte_list (VInt <$> bs) = Ok bs.
Proof.
  rewrite to_byte_list_spec.
  destruct (first_error m) eqn:Hm; [done |]. intros [= <-].
  apply first_error_None_valid in Hm.
  split; [apply map_field_length |]. split; [by apply map_field_in_range |].
  pose proof (map_field_bytes _ Hm) as Hb.
  rewrite to_byte_list_spec, (first_error_valid _ (int_entries_valid _ Hb)).
  by rewrite (map_field_int_entries _ Hb (map_field_length m)).
Qed.

Lemma to_byte_list_of_its_result_witness :
  ∃ bs, to_byte_list altgr = Ok bs ∧
        length bs = 128%nat ∧
        Forall (λ b, 0 <= b <= 255) bs ∧
        to_byte_list (VInt <$> bs) = Ok bs.
Proof.
  eexists. split; [vm_compute; reflexivity |].
  apply (to_byte_list_of_its_result altgr). vm_compute; reflexivity.
Defined.

Lemma c_string_terminated (l r : list Z) :
  Forall (λ b, b ≠ 0) l → c_string (l ++ 0 :: r) = l.
Proof.
  induction l as [| b l IH]; [done |].
  intros [Hb Hl]%Forall_cons. cbn [app c_string].
  apply Z.eqb_neq in Hb as ->. by rewrite IH.
Qed.

Lemma name_field_take_31 (name : pystr) :
  name_field (take 31 name) = name_field name.
Proof.
  unfold name_field. by rewrite !fmap_take, take_take.
Qed.

Lemma name_field_read_back (name : pystr) :
  Forall (λ c, c ≠ 0%N) (take 31 name) →
  Z.to_N <$> c_string (name_field name) = take 31 name.
Proof.
  intros Hnul. unfold name_field. cbv zeta.
  rewrite <- fmap_take, c_string_terminated.
  - induction (take 31 name) as [| c l IH]; [done |].
    apply Forall_cons in Hnul as [_ Hl].
    rewrite !fmap_cons, IH by done. by rewrite N2Z.id.
  - induction Hnul as [| c l Hc Hl IH]; [constructor |].
    rewrite fmap_cons. constructor; [lia | done].
Qed.

(** X13. A name without the character U+0000 in its first 31 characters can
    be read back from the file: the bytes of the name field before the first
    zero are the first 31 characters of the name, so the whole name when it
    has at most 31 characters. *)
Theorem name_is_read_back (filename name : pystr)
    (normal_map shift_map : list pyval) (altgr_map : option (list pyval))
    (w w' : world) (u : unit) :
  create_keyboard_layout filename name normal_map shift_map altgr_map w =
    (Ok u, w') →
  Forall (λ c, c ≠ 0%N) (take 31 name) →
  ∃ data,
    files w' !! filename = Some data ∧
    Z.to_N <$> c_string (take 32 (drop 4 data)) = take 31 name ∧
    ((length name <= 31)%nat →
     Z.to_N <$> c_string (take 32 (drop 4 data)) = name).
Proof.
  intros (_ & _ & Hf)%create_keyboard_layout_success Hnul.
  eexists. split; [exact Hf |]. rewrite data_name.
  pose proof (name_field_read_back name Hnul) as Hback.
  split; [done |]. intros Hlen. by rewrite Hback, take_ge.
Qed.

Lemma name_is_read_back_witness :
  ∃ data,
    files (snd (main empty_world)) !! es_kbd = Some data ∧
    Z.to_N <$> c_string (take 32 (drop 4 data)) = take 31 es_qwerty ∧
    ((length es_qwerty <= 31)%nat →
     Z.to_N <$> c_string (take 32 (drop 4 data)) = es_qwerty).
Proof.
  apply (name_is_read_back es_kbd es_qwerty normal shift (Some altgr)
           empty_world (snd (main empty_world)) tt).
  - vm_compute; reflexivity.
  - vm_compute. repeat constructor; discriminate.
Defined.

(** X14. A written file is a fixed point of the encoder: with the name read
    back from the name field and the three regions given as integer maps,
    the call computes the same 420 bytes again (for a name without U+0000 in
    its first 31 characters). *)
Theorem written_file_encodes_to_itself (filename name : pystr)
    (normal_map shift_map : list pyval) (altgr_map : option (list pyval))
    (w w' : world) (u : unit) :
  create_keyboard_layout filename name normal_map shift_map altgr_map w =
    (Ok u, w') →
  Forall (λ c, c ≠ 0%N) (take 31 name) →
  ∃ data,
    files w' !! filename = Some data ∧
    layout_data (Z.to_N <$> c_string (take 32 (drop 4 data)))
      (VInt <$> region 36 data) (VInt <$> region 164 data)
      (Some (VInt <$> region 292 data)) = Ok data.
Proof.
  intros (Hv & Hname & Hf)%create_keyboard_layout_success Hnul.
  unfold supplied_entries in Hv. rewrite !forallb_app in Hv.
  apply andb_true_iff in Hv as [Hn [Hs Ha]%andb_true_iff].
  eexists. split; [exact Hf |].
  rewrite data_name, data_normal, data_shift, data_altgr_region.
  rewrite (name_field_read_back name Hnul).
  pose proof (map_field_bytes _ Hn) as Hnb.
  pose proof (map_field_bytes _ Hs) as Hsb.
  pose proof (map_field_bytes _ Ha) as Hab.
  rewrite layout_data_spec. unfold supplied_entries, altgr_field.
  cbn [default from_option id].
  rewrite !first_error_app.
  rewrite (first_error_valid _ (int_entries_valid _ Hnb)).
  rewrite (first_error_valid _ (int_entries_valid _ Hsb)).
  rewrite (first_error_valid _ (int_entries_valid _ Hab)).
  assert (is_ascii (take 31 name) = true) as Ht.
  { apply forallb_forall. intros c Hc%list_elem_of_In%elem_of_take.
    destruct Hc as (i & Hc%list_elem_of_lookup_2 & _).
    by apply list_elem_of_In, (proj1 (forallb_forall _ _) Hname) in Hc. }
  rewrite (encode_ascii_ok _ Ht), name_field_take_31.
  by rewrite !map_field_int_entries by (done || apply map_field_length).
Qed.

Lemma written_file_encodes_to_itself_witness :
  ∃ data,
    files (snd (main empty_world)) !! es_kbd = Some data ∧
    layout_data (Z.to_N <$> c_string (take 32 (drop 4 data)))
      (VInt <$> region 36 data) (VInt <$> region 164 data)
      (Some (VInt <$> region 292 data)) = Ok data.
Proof.
  apply (written_file_encodes_to_itself es_kbd es_qwerty normal shift
           (Some altgr) empty_world (snd (main empty_world)) tt).
  - vm_compute; reflexivity.
  - vm_compute. repeat constructor; discriminate.
Defined.

(** X15. Of an ASCII name only the first 31 characters reach the file: two
    ASCII names that agree on them give the same bytes and the same files. *)
Theorem name_beyond_31_changes_nothing (filename name1 name2 : pystr)
    (normal_map shift_map : list pyval) (altgr_map : option (list pyval))
    (w : world) :
  is_ascii name1 = true → is_ascii name2 = true →
  take 31 name1 = take 31 name2 →
  layout_data name1 normal_map shift_map altgr_map =
    layout_data name2 normal_map shift_map altgr_map ∧
  files (snd (create_keyboard_layout filename name1 normal_map shift_map
                altgr_map w)) =
  files (snd (create_keyboard_layout filename name2 normal_map shift_map
                altgr_map w)).
Proof.
  intros H1 H2 Ht.
  assert (layout_data name1 normal_map shift_map altgr_map =
          layout_data name2 normal_map shift_map altgr_map) as Hd.
  { rewrite !layout_data_spec, (encode_ascii_ok _ H1), (encode_ascii_ok _ H2).
    by rewrite <- (name_field_take_31 name1), <- (name_field_take_31 name2), Ht. }
  split; [done |]. unfold create_keyboard_layout, write_file, print.
  rewrite Hd.
  destruct (layout_data name2 normal_map shift_map altgr_map); [| done].
  destruct (open_raises _ _); [done |].
  destruct (write_raises _ _ _) as [[e k] |]; [done |]. simpl.
  by destruct (print_raises _ _), (print_raises _ _).
Qed.

Lemma name_beyond_31_changes_nothing_witness :
  let name1 := replicate 31 65%N ++ [66%N] in
  let name2 := replicate 31 65%N ++ [67; 68]%N in
  layout_data name1 normal shift None = layout_data name2 normal shift None ∧
  files (snd (create_keyboard_layout es_kbd name1 normal shift None
                empty_world)) =
  files (snd (create_keyboard_layout es_kbd name2 normal shift None
                empty_world)).
Proof.
  intros name1 name2.
  apply (name_beyond_31_changes_nothing es_kbd name1 name2 normal shift None
           empty_world); reflexivity.
Defined.

(** ** Each field depends on its own argument only *)

(** X16. In the files of two successful calls the magic is the same, and
    the name field, the normal, the shift and the altgr region are the same
    whenever the corresponding argument is, whatever the other arguments
    are. *)
Theorem fields_are_independent (filename1 filename2 name1 name2 : pystr)
    (normal1 shift1 normal2 shift2 : list pyval)
    (altgr1 altgr2 : option (list pyval)) (w1 w1' w2 w2' : world)
    (u1 u2 : unit) :
  create_keyboard_layout filename1 name1 normal1 shift1 altgr1 w1 =
    (Ok u1, w1') →
  create_keyboard_layout filename2 name2 normal2 shift2 altgr2 w2 =
    (Ok u2, w2') →
  ∃ data1 data2,
    files w1' !! filename1 = Some data1 ∧
    files w2' !! filename2 = Some data2 ∧
    take 4 data1 = take 4 data2 ∧
    (name1 = name2 → take 32 (drop 4 data1) = take 32 (drop 4 data2)) ∧
    (normal1 = normal2 → region 36 data1 = region 36 data2) ∧
    (shift1 = shift2 → region 164 data1 = region 164 data2) ∧
    (altgr1 = altgr2 → region 292 data1 = region 292 data2).
Proof.
  intros (_ & _ & Hf1)%create_keyboard_layout_success
         (_ & _ & Hf2)%create_keyboard_layout_success.
  eexists _, _. split; [exact Hf1 |]. split; [exact Hf2 |].
  rewrite !data_magic, !data_name, !data_normal, !data_shift,
    !data_altgr_region.
  repeat split; by intros ->.
Qed.

(** The sample layout under its name and a one-entry layout under another:
    the shift regions agree, since the shift maps do. *)
Lemma fields_are_independent_witness :
  let run1 := main empty_world in
  let run2 := create_keyboard_layout [97%N] [66%N] [VInt 7] shift None
                empty_world in
  ∃ data1 data2,
    files (snd run1) !! es_kbd = Some data1 ∧
    files (snd run2) !! [97%N] = Some data2 ∧
    take 4 data1 = take 4 data2 ∧
    region 164 data1 = region 164 data2.
Proof.
  intros run1 run2.
  destruct (fields_are_independent es_kbd [97%N] es_qwerty [66%N] normal shift
              [VInt 7] shift (Some altgr) None empty_world (snd run1)
              empty_world (snd run2) tt tt)
    as (data1 & data2 & H1 & H2 & Hm & _ & _ & Hs & _);
    [vm_compute; reflexivity | vm_compute; reflexivity |].
  exists data1, data2. repeat split; [exact H1 | exact H2 | exact Hm |].
  by apply Hs.
Defined.
